(** * Burger-bot: order session state and tool handlers

    A shallow embedding of
      - [models/session_state.py]   ([OrderItem], [SessionState]),
      - [services/models.py]        ([MenuItem], [CreateOrderResponse]),
      - [services/burger_api.py]    ([BurgerAPIClient.create_order]),
      - [functions/state_operations.py] and [functions/order_operations.py]
        (the handlers of the five tools),
    followed by the properties of the cart and of the order lifecycle.

    Conventions of the embedding.
      - Python [int] is [Z]; [str] is [string]; [float] is Rocq's primitive
        binary64 [float]; [Optional[T]] is [option T].
      - An expression that can raise has a [result] type: the product of a
        float and an [int] ([OverflowError]), the printing of an [int]
        ([ValueError]), the construction of an [OrderItem].
      - A method that mutates [self] becomes a function returning the new
        state; handlers, which also talk to the API client and to the
        result callback, run in the state-and-exception monad [M].
      - Calls to [logger] do not change the state; of a call only the
        f-string passed to it is kept, where building it can raise. *)

From Stdlib Require Import ZArith QArith List String Ascii Bool Lia.
From Stdlib Require Import DecimalString PrimFloat SpecFloat FloatOps.
Import ListNotations.

#[local] Set Warnings "-inexact-float".

Local Open Scope string_scope.
Local Open Scope Z_scope.

(* ================================================================== *)
(** ** Exceptions and results *)
(* ================================================================== *)

(** The exceptions that travel through the program: pydantic's
    validation error, the two that Python's arithmetic and printing of
    [int] raise, and any other [Exception] (a failure of the endpoint). *)
Inductive exn : Type :=
| ValidationError (msg : string)
| OverflowError (msg : string)
| ValueError (msg : string)
| Exception (msg : string).

Inductive result (A : Type) : Type :=
| Returned (a : A)
| Raised (e : exn).
Arguments Returned {A} a.
Arguments Raised {A} e.

(** Evaluation in sequence: the first exception ends it. *)
Definition and_then {A B} (r : result A) (k : A -> result B) : result B :=
  match r with
  | Returned a => k a
  | Raised e => Raised e
  end.

Declare Scope result_scope.
Delimit Scope result_scope with result.
Notation "x <- r ;; k" := (and_then r (fun x => k))
  (at level 61, r at next level, right associativity) : result_scope.

(* ================================================================== *)
(** ** Python built-ins used by the program *)
(* ================================================================== *)

Module Py.

(** The decimal digits of an integer, with its sign. *)
Definition digits (n : Z) : string := NilZero.string_of_int (Z.to_int n).

(** The first integer that CPython refuses to print: 10^4300, the
    default limit of 4300 digits on the conversion of an [int] to a
    string. *)
Definition int_str_limit : Z := Eval vm_compute in (10 ^ 4300).

(** [str(n)] and [f"{n}"] for an [int]. *)
Definition str_int (n : Z) : result string :=
  if Z.abs n <? int_str_limit then Returned (digits n)
  else
    Raised
      (ValueError
         "Exceeds the limit (4300 digits) for integer string conversion; use sys.set_int_max_str_digits() to increase the limit").

(** The first integer whose nearest binary64 (ties to even) is not
    finite: 2^1024 - 2^970, half an ulp above the largest float. *)
Definition int_float_limit : Z := Eval vm_compute in (2 ^ 1024 - 2 ^ 970).

(** Conversion [int -> float] performed by [float * int]: the nearest
    binary64, ties to even; [OverflowError] when that is not finite. *)
Definition float_of_int (n : Z) : result float :=
  if Z.abs n <? int_float_limit then
    Returned (SF2Prim (binary_normalize prec emax n 0 false))
  else Raised (OverflowError "int too large to convert to float").

(** [x * n] for a float [x] and an [int] [n]. *)
Definition float_mul_int (x : float) (n : Z) : result float :=
  (f <- float_of_int n ;; Returned (PrimFloat.mul x f))%result.

(** [|x| * 100] rounded to an integer, ties to even, for the finite
    float [m * 2^e]: the decimal digits CPython's correctly rounded
    conversion produces for two places after the point. *)
Definition hundredths (m : positive) (e : Z) : Z :=
  let n := 100 * Z.pos m in
  if 0 <=? e then n * 2 ^ e
  else
    let d := 2 ^ (- e) in
    let q := n / d in
    let r := n mod d in
    if 2 * r <? d then q
    else if d <? 2 * r then q + 1
    else if Z.even q then q else q + 1.

Definition two_digits (k : Z) : string :=
  if k <? 10 then "0" ++ digits k else digits k.

Definition sign_str (s : bool) : string := if s then "-" else "".

Definition fixed2 (s : bool) (k : Z) : string :=
  sign_str s ++ digits (k / 100) ++ "." ++ two_digits (k mod 100).

(** [f"{x:.2f}"]. *)
Definition format_2f (x : float) : string :=
  match Prim2SF x with
  | S754_zero s => fixed2 s 0
  | S754_finite s m e => fixed2 s (hundredths m e)
  | S754_infinity s => sign_str s ++ "inf"
  | S754_nan => "nan"
  end.

(** The binary64 nearest to [k / 100] (ties to even), with sign [s]:
    the quotient is taken with 64 extra bits and a sticky bit. *)
Definition float_of_hundredths (s : bool) (k : Z) : float :=
  let n := k * 2 ^ 64 in
  let q := n / 100 in
  let sticky := if n mod 100 =? 0 then 0 else 1 in
  let m := 2 * q + sticky in
  SF2Prim (binary_normalize prec emax (if s then - m else m) (-65) s).

(** [round(x, 2)] on a float: the float nearest to the two-place
    decimal that [format_2f] prints; infinities and nan are returned
    as they are. *)
Definition round_2 (x : float) : float :=
  match Prim2SF x with
  | S754_zero _ => x
  | S754_finite s m e => float_of_hundredths s (hundredths m e)
  | _ => x
  end.

(** [sum(xs)] over floats: accumulation from the left, starting from
    the [int] 0, which the first addition converts to [0.0] (of no
    float at all the sum is the [int] 0, which is equal to [0.0] and
    printed like it).  This is the loop [total += x], and [sum] as
    CPython computes it up to 3.11; from 3.12 on [sum] also carries a
    compensation term for the rounding of the partial sums, which
    leaves the sum of one float as it is here. *)
Definition sum (xs : list float) : float :=
  fold_left PrimFloat.add xs 0%float.

(** The values of a generator or comprehension [f(x) for x in xs],
    produced in order: the first exception ends it. *)
Fixpoint map_result {A B : Type} (f : A -> result B) (xs : list A)
    : result (list B) :=
  match xs with
  | [] => Returned []
  | x :: rest =>
      (y <- f x ;; ys <- map_result f rest ;; Returned (y :: ys))%result
  end.

(** [sep.join(xs)]. *)
Definition join (sep : string) (xs : list string) : string :=
  String.concat sep xs.

(** The one-character string ["\n"]. *)
Definition newline : string := String (ascii_of_nat 10) "".

(** [not s] for an optional string: [None] and [""] are falsy. *)
Definition falsy (s : option string) : bool :=
  match s with
  | None => true
  | Some s => String.eqb s ""
  end.

(** The exact value of a finite float, as a rational. *)
Definition exact (x : float) : option Q :=
  match Prim2SF x with
  | S754_zero _ => Some 0%Q
  | S754_finite s m e =>
      Some (((if s then -1 else 1) * Z.pos m # 1) * Qpower 2 e)%Q
  | _ => None
  end.



End Py.

(* ================================================================== *)
(** ** Data model *)
(* ================================================================== *)

(** [services/models.py], class [MenuItem]; an entry of [MENU_ITEMS] has
    the same five keys ([get_catalog] builds one [MenuItem] per entry). *)
Module MenuItem.
Record t := mk {
  id : string;
  name : string;
  description : string;
  price : float;
  category : string
}.
End MenuItem.

(** [models/session_state.py], class [OrderItem].  The field constraints
    [quantity >= 1] and [price >= 0] are checked when an [OrderItem] is
    constructed ([new_OrderItem] below), not when a field is assigned. *)
Module OrderItem.
Record t := mk {
  item_id : string;
  quantity : Z;
  name : string;
  price : float
}.
End OrderItem.

(** [models/session_state.py], class [SessionState]. *)
Record SessionState := mkSessionState {
  order_items : list OrderItem.t
}.

(** The [{"item_id": ..., "quantity": ...}] dictionaries sent to the API. *)
Module ApiItem.
Record t := mk {
  item_id : string;
  quantity : Z
}.
End ApiItem.

(** [services/models.py], class [CreateOrderResponse]. *)
Record CreateOrderResponse := mkCreateOrderResponse {
  order_id : string;
  total : float;
  status : string
}.

(** [OrderItem(item_id=..., quantity=..., name=..., price=...)]: pydantic
    validates [quantity >= 1] and [price >= 0] (false for nan). *)
Definition new_OrderItem (item_id : string) (quantity : Z) (name : string)
    (price : float) : result OrderItem.t :=
  if negb (1 <=? quantity) then
    Raised (ValidationError "quantity: Input should be greater than or equal to 1")
  else if negb (PrimFloat.leb 0 price) then
    Raised (ValidationError "price: Input should be greater than or equal to 0")
  else Returned (OrderItem.mk item_id quantity name price).

(* ================================================================== *)
(** ** [SessionState]: the cart *)
(* ================================================================== *)

Definition has_id (i : string) (item : OrderItem.t) : bool :=
  String.eqb (OrderItem.item_id item) i.

Definition set_quantity (item : OrderItem.t) (q : Z) : OrderItem.t :=
  OrderItem.mk (OrderItem.item_id item) q (OrderItem.name item)
    (OrderItem.price item).

(** [next((i for i in self.order_items if i.item_id == item_id), None)]. *)
Definition first_with_id (i : string) (items : list OrderItem.t)
    : option OrderItem.t :=
  find (has_id i) items.

(** Assignment to the [quantity] field of the object that [next(...)]
    returned: the first line with this id is updated where it stands. *)
Fixpoint update_first (i : string) (f : Z -> Z) (items : list OrderItem.t)
    : list OrderItem.t :=
  match items with
  | [] => []
  | x :: rest =>
      if has_id i x then set_quantity x (f (OrderItem.quantity x)) :: rest
      else x :: update_first i f rest
  end.

(** [self.order_items.remove(item_to_remove)], where [item_to_remove] is
    the first line with id [i].  [list.remove] deletes the first element
    that is, or equals, its argument; every earlier line has another
    [item_id], so the element deleted is that first line. *)
Fixpoint remove_first (i : string) (items : list OrderItem.t)
    : list OrderItem.t :=
  match items with
  | [] => []
  | x :: rest => if has_id i x then rest else x :: remove_first i rest
  end.

Definition clear_order (self : SessionState) : SessionState :=
  mkSessionState [].

(** [add_item]; [if existing_item:] tests for [None], an [OrderItem]
    being truthy. *)
Definition add_item (item : OrderItem.t) (self : SessionState)
    : SessionState :=
  match first_with_id (OrderItem.item_id item) (order_items self) with
  | Some existing_item =>
      mkSessionState
        (update_first (OrderItem.item_id item)
           (fun q => q + OrderItem.quantity item) (order_items self))
  | None => mkSessionState (order_items self ++ [item])%list
  end.

(** [remove_item]; [if not item_to_remove:] tests for [None]. *)
Definition remove_item (i : string) (qty : option Z) (self : SessionState)
    : bool * SessionState :=
  match first_with_id i (order_items self) with
  | None => (false, self)
  | Some item_to_remove =>
      match qty with
      | None => (true, mkSessionState (remove_first i (order_items self)))
      | Some q =>
          if OrderItem.quantity item_to_remove <=? q then
            (true, mkSessionState (remove_first i (order_items self)))
          else
            (true, mkSessionState
                     (update_first i (fun c => c - q) (order_items self)))
      end
  end.

(** [item.price * item.quantity]. *)
Definition line_total (item : OrderItem.t) : result float :=
  Py.float_mul_int (OrderItem.price item) (OrderItem.quantity item).

(** [calculate_total]: the products are the values of a generator, so
    the first line whose product raises ends the sum. *)
Definition calculate_total (self : SessionState) : result float :=
  (products <- Py.map_result line_total (order_items self) ;;
   Returned (Py.sum products))%result.

(* ================================================================== *)
(** ** [BurgerAPIClient] *)
(* ================================================================== *)

Module BurgerAPIClient.

(** [menu_dict = {item["id"]: item for item in MENU_ITEMS}] followed by
    a lookup: of two entries with one id the later one is kept. *)
Definition menu_dict_get (MENU_ITEMS : list MenuItem.t) (i : string)
    : option MenuItem.t :=
  find (fun item => String.eqb (MenuItem.id item) i) (rev MENU_ITEMS).

(** The loop of [create_order] over the submitted items; the product
    is only formed for an item found in [menu_dict]. *)
Definition order_total (MENU_ITEMS : list MenuItem.t)
    (items : list ApiItem.t) : result float :=
  fold_left
    (fun total order_item =>
       (total <- total ;;
        match menu_dict_get MENU_ITEMS (ApiItem.item_id order_item) with
        | Some item =>
            product <-
              Py.float_mul_int (MenuItem.price item)
                (ApiItem.quantity order_item) ;;
            Returned (PrimFloat.add total product)
        | None => Returned total
        end)%result)
    items (Returned 0%float).

(** [create_order]; [MENU_ITEMS] (module [services/mock_data]) and the
    fresh [str(uuid.uuid4())] are arguments. *)
Definition create_order (MENU_ITEMS : list MenuItem.t) (uuid4 : string)
    (items : list ApiItem.t) : result CreateOrderResponse :=
  (total <- order_total MENU_ITEMS items ;;
   Returned (mkCreateOrderResponse uuid4 (Py.round_2 total) "confirmed"))%result.

(** [get_catalog]. *)
Definition get_catalog (MENU_ITEMS : list MenuItem.t) : list MenuItem.t :=
  MENU_ITEMS.

End BurgerAPIClient.

(* ================================================================== *)
(** ** The handler monad *)
(* ================================================================== *)

(** What a handler can observe and change: the session's cart, the
    requests sent to the order-submission endpoint, and the strings
    pushed through [params.result_callback], both oldest first. *)
Record World := mkWorld {
  session_state : SessionState;
  api_requests : list (list ApiItem.t);
  callback_results : list string
}.

(** An API client: what [await api_client.create_order(items)] gives,
    a response or an exception. *)
Definition ApiClient := list ApiItem.t -> result CreateOrderResponse.

(** The client of the repository. *)
Definition mock_client (MENU_ITEMS : list MenuItem.t) (uuid4 : string)
    : ApiClient :=
  fun items => BurgerAPIClient.create_order MENU_ITEMS uuid4 items.

(** State and exceptions; a mutation made before a [raise] stays. *)
Definition M (A : Type) : Type := World -> result A * World.

Definition ret {A} (a : A) : M A := fun w => (Returned a, w).

Definition raise {A} (e : exn) : M A := fun w => (Raised e, w).

Definition bind {A B} (m : M A) (k : A -> M B) : M B :=
  fun w =>
    match m w with
    | (Returned a, w') => k a w'
    | (Raised e, w') => (Raised e, w')
    end.

(** [try: body except Exception as e: handler]. *)
Definition try_except {A} (body : M A) (handler : exn -> M A) : M A :=
  fun w =>
    match body w with
    | (Returned a, w') => (Returned a, w')
    | (Raised e, w') => handler e w'
    end.

Declare Scope handler_scope.
Delimit Scope handler_scope with handler.
Notation "x <- m ;; k" := (bind m (fun x => k))
  (at level 61, m at next level, right associativity) : handler_scope.
Notation "m ;; k" := (bind m (fun _ => k))
  (at level 61, right associativity) : handler_scope.
Local Open Scope handler_scope.

Definition lift {A} (r : result A) : M A := fun w => (r, w).

Definition get_session_state : M SessionState :=
  fun w => (Returned (session_state w), w).

Definition put_session_state (s : SessionState) : M unit :=
  fun w => (Returned tt, mkWorld s (api_requests w) (callback_results w)).

(** [await params.result_callback(response)]: the callback records the
    response and returns. *)
Definition result_callback (response : string) : M unit :=
  fun w =>
    (Returned tt,
     mkWorld (session_state w) (api_requests w)
       (callback_results w ++ [response])%list).

(** [await self.api_client.create_order(api_items)]. *)
Definition api_create_order (api_client : ApiClient)
    (api_items : list ApiItem.t) : M CreateOrderResponse :=
  fun w =>
    (api_client api_items,
     mkWorld (session_state w) (api_requests w ++ [api_items])%list
       (callback_results w)).

(** Unfolds the operations of the monad in a goal about a handler. *)
Ltac unfold_handler :=
  unfold bind, ret, raise, lift, try_except, get_session_state,
    put_session_state, result_callback, api_create_order.

(** [params.arguments] of the add and remove tools. *)
Record FunctionCallParams := mkParams {
  arguments_item_id : option string;
  arguments_quantity : option Z
}.

(* ================================================================== *)
(** ** Tool handlers *)
(* ================================================================== *)

Module AddItemToOrderFunction.

(** [", ".join([item.id for item in self.catalog[:5]])]. *)
Definition available_ids (catalog : list MenuItem.t) : string :=
  Py.join ", " (map MenuItem.id (firstn 5 catalog)).

Definition not_found (item_id : string) (catalog : list MenuItem.t)
    : string :=
  "Error: Item '" ++ item_id
    ++ "' not found in menu. Available items include: "
    ++ available_ids catalog.

(** [f"Added {quantity}x {menu_item.name} to order"], the text logged. *)
Definition logged (quantity : Z) (menu_item : MenuItem.t) : result string :=
  (q <- Py.str_int quantity ;;
   Returned ("Added " ++ q ++ "x " ++ MenuItem.name menu_item ++ " to order"))%result.

Definition added (quantity : Z) (menu_item : MenuItem.t) (total : float)
    : result string :=
  (q <- Py.str_int quantity ;;
   Returned
     ("Added " ++ q ++ " " ++ MenuItem.name menu_item
        ++ "(s) to your order. Current order total: $"
        ++ Py.format_2f total))%result.

(** [_handle_add_item]; [if not item_id:] holds for a missing and for an
    empty [item_id]. *)
Definition _handle_add_item (catalog : list MenuItem.t)
    (params : FunctionCallParams) : M string :=
  let item_id := arguments_item_id params in
  let quantity :=
    match arguments_quantity params with Some q => q | None => 1 end in
  match item_id with
  | None => ret "Error: item_id is required"
  | Some item_id =>
    if String.eqb item_id "" then ret "Error: item_id is required"
    else if quantity <? 1 then ret "Error: quantity must be at least 1"
    else
      match find (fun item => String.eqb (MenuItem.id item) item_id)
              catalog with
      | None => ret (not_found item_id catalog)
      | Some menu_item =>
          order_item <-
            lift (new_OrderItem item_id quantity (MenuItem.name menu_item)
                    (MenuItem.price menu_item)) ;;
          self <- get_session_state ;;
          put_session_state (add_item order_item self) ;;
          self <- get_session_state ;;
          total <- lift (calculate_total self) ;;
          lift (logged quantity menu_item) ;;
          response <- lift (added quantity menu_item total) ;;
          result_callback response ;;
          ret response
      end
  end.

End AddItemToOrderFunction.

Module RemoveItemFromOrderFunction.

Definition not_in_order (item_id : string) : string :=
  "Error: Item '" ++ item_id ++ "' not found in your order".

(** [f"Removed {quantity if quantity and quantity < current_quantity
    else 'all'} {item_name} from order"], the text logged: the quantity
    is printed when it is given, not 0 and below the line's. *)
Definition logged (quantity : option Z) (current_quantity : Z)
    (item_name : string) : result string :=
  match quantity with
  | Some q =>
      if negb (q =? 0) && (q <? current_quantity) then
        (q <- Py.str_int q ;;
         Returned ("Removed " ++ q ++ " " ++ item_name ++ " from order"))%result
      else Returned ("Removed all " ++ item_name ++ " from order")
  | None => Returned ("Removed all " ++ item_name ++ " from order")
  end.

Definition removed_all_empty (item_name : string) : string :=
  "Removed all " ++ item_name ++ " from your order. Your order is now empty.".

Definition removed_all (item_name : string) (total : float) : string :=
  "Removed all " ++ item_name
    ++ " from your order. Current order total: $" ++ Py.format_2f total.

Definition removed_some (quantity : Z) (item_name : string)
    (total : float) : result string :=
  (q <- Py.str_int quantity ;;
   Returned
     ("Removed " ++ q ++ " " ++ item_name
        ++ "(s) from your order. Current order total: $"
        ++ Py.format_2f total))%result.

(** [_handle_remove_item]; [current_quantity] is read before the cart
    is changed. *)
Definition _handle_remove_item (params : FunctionCallParams) : M string :=
  let item_id := arguments_item_id params in
  let quantity := arguments_quantity params in
  match item_id with
  | None => ret "Error: item_id is required"
  | Some item_id =>
    if String.eqb item_id "" then ret "Error: item_id is required"
    else
      self <- get_session_state ;;
      match first_with_id item_id (order_items self) with
      | None => ret (not_in_order item_id)
      | Some item_to_remove =>
          let item_name := OrderItem.name item_to_remove in
          let current_quantity := OrderItem.quantity item_to_remove in
          if match quantity with Some q => q <? 1 | None => false end
          then ret "Error: quantity to remove must be at least 1"
          else
            let (removed, self') := remove_item item_id quantity self in
            put_session_state self' ;;
            if negb removed then ret (not_in_order item_id)
            else
              lift (logged quantity current_quantity item_name) ;;
              self <- get_session_state ;;
              match order_items self with
              | [] => ret (removed_all_empty item_name)
              | _ :: _ =>
                  total <- lift (calculate_total self) ;;
                  response <-
                    lift
                      match quantity with
                      | None => Returned (removed_all item_name total)
                      | Some q =>
                          if current_quantity <=? q
                          then Returned (removed_all item_name total)
                          else removed_some q item_name total
                      end ;;
                  result_callback response ;;
                  ret response
              end
      end
  end.

End RemoveItemFromOrderFunction.

Module ReadCurrentOrderFunction.

(** One turn of the loop: [item_total = item.price * item.quantity],
    then [f"  {item.quantity}x {item.name} - ${item_total:.2f}"]. *)
Definition order_line (item : OrderItem.t) : result string :=
  (item_total <- line_total item ;;
   q <- Py.str_int (OrderItem.quantity item) ;;
   Returned
     ("  " ++ q ++ "x " ++ OrderItem.name item ++ " - $"
        ++ Py.format_2f item_total))%result.

Definition _handle_read_order : M string :=
  self <- get_session_state ;;
  match order_items self with
  | [] => ret "Your order is currently empty."
  | _ :: _ =>
      item_lines <- lift (Py.map_result order_line (order_items self)) ;;
      let lines := "Here's your current order:" :: item_lines in
      total <- lift (calculate_total self) ;;
      let total_line := Py.newline ++ "Total: $" ++ Py.format_2f total in
      let lines := app lines [total_line] in
      let response := Py.join Py.newline lines in
      result_callback response ;;
      ret response
  end.

End ReadCurrentOrderFunction.

Module CalculateOrderTotalFunction.

(** One turn of the loop: [item_total = item.price * item.quantity],
    then [f"  {item.quantity}x {item.name} @ ${item.price:.2f} each =
    ${item_total:.2f}"]. *)
Definition breakdown_line (item : OrderItem.t) : result string :=
  (item_total <- line_total item ;;
   q <- Py.str_int (OrderItem.quantity item) ;;
   Returned
     ("  " ++ q ++ "x " ++ OrderItem.name item
        ++ " @ $" ++ Py.format_2f (OrderItem.price item)
        ++ " each = $" ++ Py.format_2f item_total))%result.

Definition _handle_calculate_total : M string :=
  self <- get_session_state ;;
  match order_items self with
  | [] => ret "Your order is empty. Please add some items first."
  | _ :: _ =>
      item_lines <- lift (Py.map_result breakdown_line (order_items self)) ;;
      let lines := "Here's the breakdown of your order:" :: item_lines in
      total <- lift (calculate_total self) ;;
      let total_line := Py.newline ++ "Total: $" ++ Py.format_2f total in
      let lines := app lines [total_line] in
      let response := Py.join Py.newline lines in
      result_callback response ;;
      ret response
  end.

End CalculateOrderTotalFunction.

Module CreateOrderFunction.

Definition empty_order : string :=
  "Error: Your order is empty. Please add some items before placing your order.".

Definition confirmed (order_response : CreateOrderResponse) : string :=
  "Order confirmed! Your order ID is " ++ order_id order_response
    ++ ". Total: $" ++ Py.format_2f (total order_response)
    ++ ". Thank you for your order!".

Definition apology : string :=
  "Sorry, there was an error processing your order. Your items are still in your cart. Please try again in a moment.".

(** [[{"item_id": item.item_id, "quantity": item.quantity} for item in
    self.session_state.order_items]]. *)
Definition api_items_of (items : list OrderItem.t) : list ApiItem.t :=
  map
    (fun item =>
       ApiItem.mk (OrderItem.item_id item) (OrderItem.quantity item))
    items.

Definition _handle_create_order (api_client : ApiClient) : M string :=
  self <- get_session_state ;;
  match order_items self with
  | [] => ret empty_order
  | _ :: _ =>
      try_except
        (self <- get_session_state ;;
         let api_items := api_items_of (order_items self) in
         order_response <- api_create_order api_client api_items ;;
         self <- get_session_state ;;
         put_session_state (clear_order self) ;;
         let response := confirmed order_response in
         result_callback response ;;
         ret response)
        (fun e =>
           let response := apology in
           result_callback response ;;
           ret response)
  end.

End CreateOrderFunction.

(** The five tools that [bot.py] registers with the language model,
    each under the name of its schema, and the handler each call runs. *)
Inductive ToolCall : Type :=
| add_item_to_order (params : FunctionCallParams)
| remove_item_from_order (params : FunctionCallParams)
| read_current_order
| calculate_order_total
| create_order.

Definition handler (catalog : list MenuItem.t) (api_client : ApiClient)
    (call : ToolCall) : M string :=
  match call with
  | add_item_to_order params =>
      AddItemToOrderFunction._handle_add_item catalog params
  | remove_item_from_order params =>
      RemoveItemFromOrderFunction._handle_remove_item params
  | read_current_order => ReadCurrentOrderFunction._handle_read_order
  | calculate_order_total =>
      CalculateOrderTotalFunction._handle_calculate_total
  | create_order => CreateOrderFunction._handle_create_order api_client
  end.

(* ================================================================== *)
(** ** Vocabulary of the properties *)
(* ================================================================== *)

(** The ids of the lines of a cart, in order. *)
Definition line_ids (items : list OrderItem.t) : list string :=
  map OrderItem.item_id items.

(** The lines of a cart that carry the id [i]. *)
Definition lines_for (i : string) (self : SessionState) : list OrderItem.t :=
  filter (has_id i) (order_items self).

(** The lines of a cart that carry another id than [i], in the order
    of the cart. *)
Definition other_lines (i : string) (self : SessionState)
    : list OrderItem.t :=
  filter (fun item => negb (has_id i item)) (order_items self).

(** The quantity the cart holds for [i]: that of its first line with
    this id, 0 when there is none. *)
Definition quantity_of (i : string) (self : SessionState) : Z :=
  match first_with_id i (order_items self) with
  | Some item => OrderItem.quantity item
  | None => 0
  end.

(** The two invariants of the cart. *)
Definition quantities_positive (self : SessionState) : Prop :=
  Forall (fun item => 1 <= OrderItem.quantity item) (order_items self).

Definition unique_ids (self : SessionState) : Prop :=
  NoDup (line_ids (order_items self)).

Definition cart_invariant (self : SessionState) : Prop :=
  quantities_positive self /\ unique_ids self.

(** The operations of the cart. *)
Inductive CartOp : Type :=
| Add (item : OrderItem.t)
| Remove (i : string) (qty : option Z)
| Clear.

Definition apply_op (op : CartOp) (self : SessionState) : SessionState :=
  match op with
  | Add item => add_item item self
  | Remove i qty => snd (remove_item i qty self)
  | Clear => clear_order self
  end.

(** An [OrderItem] handed to [add_item] was built by the constructor,
    hence has [quantity >= 1]; the other operations take any argument. *)
Definition op_valid (op : CartOp) : Prop :=
  match op with
  | Add item => 1 <= OrderItem.quantity item
  | _ => True
  end.

Definition run_ops (ops : list CartOp) (self : SessionState) : SessionState :=
  fold_left (fun s op => apply_op op s) ops self.

(** A tool result that reports an error: the text starts with "Error:". *)
Definition is_error (r : result string) : Prop :=
  match r with
  | Returned s => String.prefix "Error:" s = true
  | Raised _ => False
  end.

(** Every line of the cart is on the backend's menu, at the price the
    line carries. *)
Definition lines_on_menu (MENU_ITEMS : list MenuItem.t) (self : SessionState)
    : Prop :=
  Forall
    (fun item =>
       option_map MenuItem.price
         (BurgerAPIClient.menu_dict_get MENU_ITEMS (OrderItem.item_id item))
       = Some (OrderItem.price item))
    (order_items self).

(** The world a handler leaves when it only delivers [response]. *)
Definition delivered (response : string) (w : World) : World :=
  mkWorld (session_state w) (api_requests w)
    (callback_results w ++ [response])%list.

(** The world after one request [items] was sent to the endpoint. *)
Definition submitted (items : list ApiItem.t) (w : World) : World :=
  mkWorld (session_state w) (api_requests w ++ [items])%list
    (callback_results w).

Definition with_session_state (s : SessionState) (w : World) : World :=
  mkWorld s (api_requests w) (callback_results w).

(** What a run did with the callback: nothing, or one delivery of the
    very string it returns. *)
Definition callback_discipline (w : World) (run : result string * World)
    : Prop :=
  callback_results (snd run) = callback_results w
  \/ exists response,
       fst run = Returned response
       /\ callback_results (snd run)
          = (callback_results w ++ [response])%list.

(** The statement "on a non-empty cart a successful submission clears
    the cart and the response carries the cart's [calculate_total()]",
    for the repository's client. *)
Definition create_order_total_claim (MENU_ITEMS : list MenuItem.t)
    (uuid4 : string) (w : World) : Prop :=
  order_items (session_state w) <> [] ->
  let (r, w') :=
    CreateOrderFunction._handle_create_order (mock_client MENU_ITEMS uuid4) w in
  exists response,
    BurgerAPIClient.create_order MENU_ITEMS uuid4
      (CreateOrderFunction.api_items_of (order_items (session_state w)))
    = Returned response
    /\ order_items (session_state w') = []
    /\ r = Returned (CreateOrderFunction.confirmed response)
    /\ calculate_total (session_state w) = Returned (total response).

(** The statement of the add tool's case analysis: quantity below 1,
    else id absent from the catalog, else merge.  "An error string
    listing the ids" is read as an error text that ends with the list,
    "a confirmation that includes the total" as a text that ends with
    the total printed with two decimals. *)
Definition add_item_to_order_claim (catalog : list MenuItem.t)
    (params : FunctionCallParams) (w : World) : Prop :=
  let quantity :=
    match arguments_quantity params with Some q => q | None => 1 end in
  let (r, w') := AddItemToOrderFunction._handle_add_item catalog params w in
  (quantity < 1 -> is_error r /\ session_state w' = session_state w)
  /\ (1 <= quantity ->
      forall i, arguments_item_id params = Some i ->
      match find (fun item => String.eqb (MenuItem.id item) i) catalog with
      | None =>
          is_error r
          /\ (exists text,
                r = Returned
                      (text ++ AddItemToOrderFunction.available_ids catalog))
          /\ session_state w' = session_state w
      | Some menu_item =>
          let order_item :=
            OrderItem.mk i quantity (MenuItem.name menu_item)
              (MenuItem.price menu_item) in
          session_state w' = add_item order_item (session_state w)
          /\ (exists text total,
                calculate_total (session_state w') = Returned total
                /\ r = Returned (text ++ Py.format_2f total))
      end).

(** The catalog of the worked example: [burger-001] at 5.99 and
    [side-001] at 2.49. *)
Definition example_menu : list MenuItem.t :=
  [ MenuItem.mk "burger-001" "Classic Burger" "Beef patty in a bun" 5.99
      "burger";
    MenuItem.mk "side-001" "Fries" "Crispy fries" 2.49 "side" ].

(** The same catalog after the price of [burger-001] went up. *)
Definition repriced_menu : list MenuItem.t :=
  [ MenuItem.mk "burger-001" "Classic Burger" "Beef patty in a bun" 6.49
      "burger";
    MenuItem.mk "side-001" "Fries" "Crispy fries" 2.49 "side" ].

(** Lines and carts of the worked example. *)
Definition three_burgers : OrderItem.t :=
  OrderItem.mk "burger-001" 3 "Classic Burger" 5.99.

Definition one_fries : OrderItem.t :=
  OrderItem.mk "side-001" 1 "Fries" 2.49.

Definition fries_and_burgers : SessionState :=
  mkSessionState [one_fries; three_burgers].

(** A session at its start: empty cart, nothing sent, nothing delivered. *)
Definition new_session : World := mkWorld (mkSessionState []) [] [].

(** The session after the customer ordered three [side-001]. *)
Definition three_fries : World :=
  snd (AddItemToOrderFunction._handle_add_item example_menu
         (mkParams (Some "side-001") (Some 3)) new_session).

(** A session holding one [burger-001] added at 5.99. *)
Definition one_burger : World :=
  snd (AddItemToOrderFunction._handle_add_item example_menu
         (mkParams (Some "burger-001") None) new_session).

(* ================================================================== *)
(** ** [bot.py]: the catalog in the prompt, the session *)
(* ================================================================== *)

Module Bot.

(** [f"  {item.name} (ID: {item.id}) - ${item.price:.2f}"]. *)
Definition item_line (item : MenuItem.t) : string :=
  "  " ++ MenuItem.name item ++ " (ID: " ++ MenuItem.id item ++ ") - $"
    ++ Py.format_2f (MenuItem.price item).

(** [f"    {item.description}"]. *)
Definition description_line (item : MenuItem.t) : string :=
  "    " ++ MenuItem.description item.

(** [f"\n{category_name}:"] with
    [category_name = current_category.capitalize() + "s"];
    [str.capitalize] is the argument [capitalize]. *)
Definition category_line (capitalize : string -> string) (category : string)
    : string :=
  Py.newline ++ (capitalize category ++ "s") ++ ":".

(** [item.category != current_category], where [current_category] is
    [None] before the first item. *)
Definition category_differs (category : string)
    (current_category : option string) : bool :=
  match current_category with
  | None => true
  | Some c => negb (String.eqb category c)
  end.

(** One turn of the loop of [format_catalog_for_prompt] on the pair
    [(current_category, lines)]. *)
Definition format_item (capitalize : string -> string)
    (state : option string * list string) (item : MenuItem.t)
    : option string * list string :=
  let (current_category, lines) := state in
  let (current_category, lines) :=
    if category_differs (MenuItem.category item) current_category then
      (Some (MenuItem.category item),
       app lines [category_line capitalize (MenuItem.category item)])
    else (current_category, lines) in
  (current_category, app lines [item_line item; description_line item]).

(** The list [lines] when the loop is over. *)
Definition catalog_lines (capitalize : string -> string)
    (catalog_items : list MenuItem.t) : list string :=
  snd (fold_left (format_item capitalize) catalog_items (None, [])).

Definition format_catalog_for_prompt (capitalize : string -> string)
    (catalog_items : list MenuItem.t) : string :=
  Py.join Py.newline (catalog_lines capitalize catalog_items).

End Bot.

(** One tool call of a session, with what the order-submission endpoint
    would answer at that moment. *)
Definition Step : Type := ApiClient * ToolCall.

(** The world after the call; an exception that leaves a handler ends
    the call, not the session. *)
Definition after_call (catalog : list MenuItem.t) (w : World) (step : Step)
    : World :=
  snd (handler catalog (fst step) (snd step) w).

(** The world after the calls [steps], made one after the other as
    [run_bot] wires them: one [session_state] shared by the five tools. *)
Definition run_session (catalog : list MenuItem.t) (steps : list Step)
    (w : World) : World :=
  fold_left (after_call catalog) steps w.

(** The catalog lookup of the add tool:
    [next((item for item in self.catalog if item.id == item_id), None)]. *)
Definition catalog_find (catalog : list MenuItem.t) (i : string)
    : option MenuItem.t :=
  find (fun item => String.eqb (MenuItem.id item) i) catalog.

(** A line is the snapshot of the catalog entry found under its id: it
    carries that entry's name and price, a price that [OrderItem]
    accepts, and its id is not empty. *)
Definition snapshot_of (catalog : list MenuItem.t) (item : OrderItem.t)
    : Prop :=
  OrderItem.item_id item <> ""%string
  /\ PrimFloat.leb 0 (OrderItem.price item) = true
  /\ exists menu_item,
       catalog_find catalog (OrderItem.item_id item) = Some menu_item
       /\ OrderItem.name item = MenuItem.name menu_item
       /\ OrderItem.price item = MenuItem.price menu_item.

(** What one tool call can do to the cart. *)
Inductive cart_effect (catalog : list MenuItem.t) (s : SessionState)
    : SessionState -> Prop :=
| effect_none : cart_effect catalog s s
| effect_add (i : string) (q : Z) (menu_item : MenuItem.t) :
    i <> ""%string ->
    1 <= q ->
    catalog_find catalog i = Some menu_item ->
    PrimFloat.leb 0 (MenuItem.price menu_item) = true ->
    cart_effect catalog s
      (add_item
         (OrderItem.mk i q (MenuItem.name menu_item)
            (MenuItem.price menu_item)) s)
| effect_remove (i : string) (qty : option Z) :
    cart_effect catalog s (snd (remove_item i qty s))
| effect_clear : cart_effect catalog s (mkSessionState []).

(** The number of places in a catalog where the category differs from
    that of the entry before (the first entry counts). *)
Fixpoint category_changes (previous : option string)
    (catalog_items : list MenuItem.t) : nat :=
  match catalog_items with
  | [] => 0
  | item :: rest =>
      ((if Bot.category_differs (MenuItem.category item) previous
        then 1 else 0)
       + category_changes (Some (MenuItem.category item)) rest)%nat
  end.

(** The submitted item is one the backend's menu knows. *)
Definition on_menu (MENU_ITEMS : list MenuItem.t) (order_item : ApiItem.t)
    : bool :=
  match BurgerAPIClient.menu_dict_get MENU_ITEMS (ApiItem.item_id order_item)
  with
  | Some _ => true
  | None => false
  end.

(** A catalog with an entry whose price [OrderItem] rejects. *)
Definition menu_with_refund : list MenuItem.t :=
  [ MenuItem.mk "burger-001" "Classic Burger" "Beef patty in a bun" 5.99
      "burger";
    MenuItem.mk "refund-001" "Refund" "Money back" (-1) "other" ].

(** A catalog that lists [burger-001] twice, at two prices, among
    other entries. *)
Definition menu_with_duplicate : list MenuItem.t :=
  [ MenuItem.mk "side-001" "Fries" "Crispy fries" 2.49 "side";
    MenuItem.mk "burger-001" "Classic Burger" "Beef patty in a bun" 5.99
      "burger";
    MenuItem.mk "drink-001" "Cola" "Cold cola" 1.99 "drink";
    MenuItem.mk "burger-001" "Classic Burger" "Beef patty in a bun" 6.49
      "burger";
    MenuItem.mk "side-002" "Onion Rings" "Battered rings" 2.99 "side" ].

(** The session of the worked example before the order is placed. *)
Definition example_steps : list Step :=
  [ (mock_client example_menu "X",
     add_item_to_order (mkParams (Some "burger-001") (Some 2)));
    (mock_client example_menu "X",
     add_item_to_order (mkParams (Some "burger-001") (Some 1)));
    (mock_client example_menu "X",
     remove_item_from_order (mkParams (Some "burger-001") (Some 1)));
    (mock_client example_menu "X",
     add_item_to_order (mkParams (Some "side-001") (Some 1))) ].

(* ================================================================== *)
(** ** Exact amounts *)
(* ================================================================== *)





(** Every quantity of the cart can be turned into a float. *)
Definition quantities_in_float_range (self : SessionState) : Prop :=
  Forall (fun item => Z.abs (OrderItem.quantity item) < Py.int_float_limit)
    (order_items self).

(** A bound under which two quantities can be added or subtracted and
    the result still be turned into a float and printed: 2^1022. *)
Definition modest_limit : Z := Eval vm_compute in (2 ^ 1022).

Definition modest (n : Z) : Prop := Z.abs n < modest_limit.

Definition modest_cart (self : SessionState) : Prop :=
  Forall (fun item => modest (OrderItem.quantity item)) (order_items self).

Definition modest_call (call : ToolCall) : Prop :=
  match call with
  | add_item_to_order params | remove_item_from_order params =>
      match arguments_quantity params with
      | Some q => modest q
      | None => True
      end
  | _ => True
  end.





(** The session in which 2^1024 [burger-001] were asked for: the add
    tool raised, after the line was put in the cart. *)
Definition too_many_burgers : World :=
  run_session example_menu
    [ (mock_client example_menu "X",
       add_item_to_order (mkParams (Some "burger-001") (Some (2 ^ 1024)))) ]
    new_session.

(** The session in which 10^4301 [burger-001] were asked for, a number
    of 4302 digits: the add tool raised, and the line is in the cart. *)
Definition hoard : World :=
  run_session example_menu
    [ (mock_client example_menu "X",
       add_item_to_order (mkParams (Some "burger-001") (Some (10 ^ 4301)))) ]
    new_session.
(* ================================================================== *)
(** ** Lists of order lines *)
(* ================================================================== *)

(** From here on [++] is the concatenation of lists. *)
Local Open Scope list_scope.

Section Lines.

Variable i : string.

Lemma has_id_true (x : OrderItem.t) :
  has_id i x = true <-> OrderItem.item_id x = i.
Proof. unfold has_id. apply String.eqb_eq. Qed.

Lemma has_id_false (x : OrderItem.t) :
  has_id i x = false <-> OrderItem.item_id x <> i.
Proof. unfold has_id. apply String.eqb_neq. Qed.

Lemma has_id_set_quantity (x : OrderItem.t) (q : Z) :
  has_id i (set_quantity x q) = has_id i x.
Proof. reflexivity. Qed.

Lemma first_with_id_absent (items : list OrderItem.t) :
  first_with_id i items = None <-> ~ In i (line_ids items).
Proof.
  unfold first_with_id.
  induction items as [|x rest IH]; simpl.
  - tauto.
  - destruct (has_id i x) eqn:E.
    + apply has_id_true in E. split; [discriminate | tauto].
    + apply has_id_false in E. rewrite IH. tauto.
Qed.

(** The three traversals of the cart agree on which line is "the" line
    for [i]: the first one. *)
Lemma at_first_line (pre post : list OrderItem.t) (x : OrderItem.t) :
  OrderItem.item_id x = i ->
  ~ In i (line_ids pre) ->
  first_with_id i (pre ++ x :: post) = Some x
  /\ (forall f, update_first i f (pre ++ x :: post)
                = pre ++ set_quantity x (f (OrderItem.quantity x)) :: post)
  /\ remove_first i (pre ++ x :: post) = pre ++ post.
Proof.
  intros Hx. apply has_id_true in Hx.
  unfold first_with_id.
  induction pre as [|y pre IH]; simpl; intros Hpre.
  - rewrite Hx. auto.
  - assert (Hy : has_id i y = false) by (apply has_id_false; tauto).
    rewrite Hy.
    destruct IH as (IH1 & IH2 & IH3); [tauto|].
    repeat split.
    + exact IH1.
    + intros f. now rewrite IH2.
    + now rewrite IH3.
Qed.

Lemma first_with_id_split (items : list OrderItem.t) (x : OrderItem.t) :
  first_with_id i items = Some x ->
  exists pre post,
    items = pre ++ x :: post
    /\ OrderItem.item_id x = i
    /\ ~ In i (line_ids pre).
Proof.
  unfold first_with_id.
  induction items as [|y rest IH]; simpl; [discriminate|].
  destruct (has_id i y) eqn:E; intros H.
  - injection H as ->. exists [], rest.
    apply has_id_true in E. simpl. tauto.
  - destruct (IH H) as (pre & post & -> & Hx & Hpre).
    exists (y :: pre), post. apply has_id_false in E.
    simpl. intuition congruence.
Qed.

Lemma filter_absent (items : list OrderItem.t) :
  ~ In i (line_ids items) -> filter (has_id i) items = [].
Proof.
  induction items as [|y rest IH]; simpl; intros H; [reflexivity|].
  assert (Hy : has_id i y = false) by (apply has_id_false; tauto).
  rewrite Hy. apply IH. tauto.
Qed.

Lemma line_ids_app (l1 l2 : list OrderItem.t) :
  line_ids (l1 ++ l2) = (line_ids l1 ++ line_ids l2)%list.
Proof. apply map_app. Qed.

Lemma line_ids_update_first (f : Z -> Z) (items : list OrderItem.t) :
  line_ids (update_first i f items) = line_ids items.
Proof.
  induction items as [|y rest IH]; simpl; [reflexivity|].
  destruct (has_id i y); simpl; [reflexivity | now rewrite IH].
Qed.

Lemma length_update_first (f : Z -> Z) (items : list OrderItem.t) :
  List.length (update_first i f items) = List.length items.
Proof.
  induction items as [|y rest IH]; simpl; [reflexivity|].
  destruct (has_id i y); simpl; [reflexivity | now rewrite IH].
Qed.

Lemma In_remove_first (x : OrderItem.t) (items : list OrderItem.t) :
  In x (remove_first i items) -> In x items.
Proof.
  induction items as [|y rest IH]; simpl; [tauto|].
  destruct (has_id i y); simpl; tauto.
Qed.

Lemma NoDup_remove_first (items : list OrderItem.t) :
  NoDup (line_ids items) -> NoDup (line_ids (remove_first i items)).
Proof.
  induction items as [|y rest IH]; simpl; intros H; [constructor|].
  inversion H as [|? ? Hy Hrest]; subst.
  destruct (has_id i y); simpl; [assumption|].
  constructor; [|auto].
  intros Hin. apply Hy.
  unfold line_ids in *. apply in_map_iff in Hin.
  destruct Hin as (z & Hz & Hin). apply in_map_iff.
  exists z. split; [assumption|]. now apply In_remove_first.
Qed.

End Lines.

(* ================================================================== *)
(** ** What can raise, and when *)
(* ================================================================== *)

Lemma float_of_int_returns (n : Z) :
  Z.abs n < Py.int_float_limit ->
  Py.float_of_int n
  = Returned (SF2Prim (binary_normalize prec emax n 0 false)).
Proof.
  intros H. unfold Py.float_of_int.
  apply Z.ltb_lt in H. now rewrite H.
Qed.

Lemma float_of_int_raises (n : Z) :
  Py.int_float_limit <= Z.abs n ->
  Py.float_of_int n
  = Raised (OverflowError "int too large to convert to float").
Proof.
  intros H. unfold Py.float_of_int.
  apply Z.ltb_ge in H. now rewrite H.
Qed.

Lemma str_int_returns (n : Z) :
  Z.abs n < Py.int_str_limit -> Py.str_int n = Returned (Py.digits n).
Proof.
  intros H. unfold Py.str_int.
  apply Z.ltb_lt in H. now rewrite H.
Qed.

(** An integer that can be turned into a float can be printed. *)
Lemma int_float_limit_below_int_str_limit :
  Py.int_float_limit <= Py.int_str_limit.
Proof. unfold Z.le. vm_compute. discriminate. Qed.

Lemma modest_limit_below_int_float_limit :
  2 * modest_limit <= Py.int_float_limit.
Proof. unfold Z.le. vm_compute. discriminate. Qed.

Lemma line_total_returns (item : OrderItem.t) :
  Z.abs (OrderItem.quantity item) < Py.int_float_limit ->
  line_total item
  = Returned
      (PrimFloat.mul (OrderItem.price item)
         (SF2Prim
            (binary_normalize prec emax (OrderItem.quantity item) 0 false))).
Proof.
  intros H. unfold line_total, Py.float_mul_int.
  now rewrite (float_of_int_returns _ H).
Qed.

Lemma line_total_raises (item : OrderItem.t) :
  Py.int_float_limit <= Z.abs (OrderItem.quantity item) ->
  line_total item
  = Raised (OverflowError "int too large to convert to float").
Proof.
  intros H. unfold line_total, Py.float_mul_int.
  now rewrite (float_of_int_raises _ H).
Qed.

(** The product of a line either is a float or raises [OverflowError],
    according to the quantity alone. *)
Lemma line_total_cases (item : OrderItem.t) :
  (Z.abs (OrderItem.quantity item) < Py.int_float_limit
   /\ exists product, line_total item = Returned product)
  \/ (Py.int_float_limit <= Z.abs (OrderItem.quantity item)
      /\ line_total item
         = Raised (OverflowError "int too large to convert to float")).
Proof.
  destruct (Z.lt_ge_cases (Z.abs (OrderItem.quantity item))
              Py.int_float_limit) as [H|H].
  - left. split; [exact H|]. eexists. now apply line_total_returns.
  - right. split; [exact H|]. now apply line_total_raises.
Qed.

Lemma map_result_app {A B : Type} (f : A -> result B) (xs zs : list A) :
  Py.map_result f (xs ++ zs)
  = (ys <- Py.map_result f xs ;;
     ws <- Py.map_result f zs ;;
     Returned (ys ++ ws))%result.
Proof.
  induction xs as [|x xs IH]; cbn [Py.map_result app and_then].
  - now destruct (Py.map_result f zs).
  - destruct (f x) as [y|e]; cbn [and_then]; [|reflexivity].
    rewrite IH.
    destruct (Py.map_result f xs) as [ys|e]; cbn [and_then]; [|reflexivity].
    now destruct (Py.map_result f zs).
Qed.

Lemma map_result_returns {A B : Type} (f : A -> result B) (xs : list A) :
  Forall (fun x => exists y, f x = Returned y) xs ->
  exists ys, Py.map_result f xs = Returned ys.
Proof.
  induction 1 as [|x xs [y Hy] _ [ys IH]]; cbn [Py.map_result].
  - now eexists.
  - rewrite Hy, IH. cbn [and_then]. now eexists.
Qed.


Lemma map_result_raised {A B : Type} (f : A -> result B) (xs : list A)
    (e : exn) :
  Py.map_result f xs = Raised e -> exists x, In x xs /\ f x = Raised e.
Proof.
  induction xs as [|x xs IH]; cbn [Py.map_result]; [discriminate|].
  destruct (f x) as [y|e'] eqn:Hy; cbn [and_then].
  - destruct (Py.map_result f xs) as [ys|e'']; cbn [and_then];
      [discriminate|].
    intros H. injection H as ->.
    destruct (IH eq_refl) as (x' & Hin & Hx'). exists x'. split; [now right|].
    exact Hx'.
  - intros H. injection H as ->. exists x. split; [now left | exact Hy].
Qed.

Lemma calculate_total_returns (self : SessionState) :
  quantities_in_float_range self ->
  exists total, calculate_total self = Returned total.
Proof.
  intros H. unfold calculate_total.
  destruct (map_result_returns line_total (order_items self)) as [ys Hys].
  - unfold quantities_in_float_range in H.
    eapply Forall_impl; [|exact H].
    intros item Hitem. eexists. now apply line_total_returns.
  - rewrite Hys. cbn [and_then]. now eexists.
Qed.


Lemma calculate_total_raised (self : SessionState) (e : exn) :
  calculate_total self = Raised e ->
  e = OverflowError "int too large to convert to float"
  /\ exists item,
       In item (order_items self)
       /\ Py.int_float_limit <= Z.abs (OrderItem.quantity item).
Proof.
  unfold calculate_total. intros H.
  destruct (Py.map_result line_total (order_items self)) as [ys|e'] eqn:Hys;
    [discriminate H|].
  cbn [and_then] in H. injection H as ->.
  apply map_result_raised in Hys. destruct Hys as (item & Hin & Hraise).
  destruct (line_total_cases item) as [[_ [y Hy]]|[Hge Hitem]].
  - rewrite Hy in Hraise. discriminate Hraise.
  - rewrite Hitem in Hraise. injection Hraise as <-.
    split; [reflexivity|]. now exists item.
Qed.

Lemma returned_inj {A : Type} (a b : A) : Returned a = Returned b -> a = b.
Proof.
  intros H.
  exact (f_equal (fun r => match r with Returned x => x | Raised _ => a end) H).
Qed.

Lemma float_neq (x y : float) :
  Prim2SF x <> Prim2SF y -> x <> y.
Proof. intros H E. apply H. now rewrite E. Qed.

(* ================================================================== *)
(** ** The cart: merge, removal, invariants *)
(* ================================================================== *)

Lemma mkSessionState_eta (self : SessionState) :
  mkSessionState (order_items self) = self.
Proof. now destruct self. Qed.

Lemma add_item_absent (item : OrderItem.t) (self : SessionState) :
  ~ In (OrderItem.item_id item) (line_ids (order_items self)) ->
  add_item item self = mkSessionState (order_items self ++ [item])%list.
Proof.
  intros H. unfold add_item.
  apply first_with_id_absent in H. now rewrite H.
Qed.

Lemma add_item_present (item x : OrderItem.t) (pre post : list OrderItem.t)
    (self : SessionState) :
  order_items self = (pre ++ x :: post)%list ->
  OrderItem.item_id x = OrderItem.item_id item ->
  ~ In (OrderItem.item_id item) (line_ids pre) ->
  add_item item self
  = mkSessionState
      (pre ++ set_quantity x (OrderItem.quantity x + OrderItem.quantity item)
           :: post)%list.
Proof.
  intros Hs Hx Hpre. unfold add_item. rewrite Hs.
  destruct (at_first_line (OrderItem.item_id item) pre post x Hx Hpre)
    as (H1 & H2 & _).
  rewrite H1. now rewrite H2.
Qed.

Lemma lines_for_single (i : string) (pre post : list OrderItem.t)
    (x : OrderItem.t) :
  OrderItem.item_id x = i ->
  ~ In i (line_ids pre) ->
  ~ In i (line_ids post) ->
  filter (has_id i) (pre ++ x :: post) = [x].
Proof.
  intros Hx Hpre Hpost.
  rewrite filter_app. simpl.
  apply has_id_true in Hx. rewrite Hx.
  now rewrite (filter_absent i pre Hpre), (filter_absent i post Hpost).
Qed.

Lemma unique_ids_split (i : string) (pre post : list OrderItem.t)
    (x : OrderItem.t) :
  OrderItem.item_id x = i ->
  NoDup (line_ids (pre ++ x :: post)) ->
  ~ In i (line_ids pre) /\ ~ In i (line_ids post).
Proof.
  intros Hx H. rewrite line_ids_app in H. simpl in H. rewrite Hx in H.
  apply NoDup_remove_2 in H. rewrite in_app_iff in H. tauto.
Qed.

(** C4 -- merge invariant.  On a cart whose lines have distinct ids,
    adding [q1] and then [q2] of the id [i] leaves exactly one line for
    [i]; its quantity is [q1 + q2] plus what the cart held for [i]
    before; the second add does not lengthen the cart. *)
Theorem add_item_twice_merges (self : SessionState) (i n1 n2 : string)
    (q1 q2 : Z) (p1 p2 : float) :
  unique_ids self ->
  1 <= q1 ->
  1 <= q2 ->
  let after1 := add_item (OrderItem.mk i q1 n1 p1) self in
  let after2 := add_item (OrderItem.mk i q2 n2 p2) after1 in
  map OrderItem.quantity (lines_for i after2)
    = [quantity_of i self + q1 + q2]
  /\ List.length (order_items after2) = List.length (order_items after1).
Proof.
  intros Huniq _ _. unfold lines_for, quantity_of. cbv zeta.
  destruct (first_with_id i (order_items self)) as [x|] eqn:Hfind.
  - destruct (first_with_id_split i _ x Hfind) as (pre & post & Hs & Hx & Hpre).
    unfold unique_ids in Huniq. rewrite Hs in Huniq.
    destruct (unique_ids_split i pre post x Hx Huniq) as (_ & Hpost).
    set (x1 := set_quantity x (OrderItem.quantity x + q1)).
    assert (E1 : add_item (OrderItem.mk i q1 n1 p1) self
                 = mkSessionState (pre ++ x1 :: post))
      by (apply (add_item_present (OrderItem.mk i q1 n1 p1) x); assumption).
    assert (E2 : add_item (OrderItem.mk i q2 n2 p2)
                   (mkSessionState (pre ++ x1 :: post))
                 = mkSessionState
                     (pre ++ set_quantity x1 (OrderItem.quantity x1 + q2)
                          :: post))
      by (apply (add_item_present (OrderItem.mk i q2 n2 p2) x1);
          [reflexivity | exact Hx | exact Hpre]).
    rewrite E1, E2. cbn [order_items].
    rewrite (lines_for_single i pre post
               (set_quantity x1 (OrderItem.quantity x1 + q2)) Hx Hpre Hpost).
    split; [reflexivity|].
    rewrite !length_app. reflexivity.
  - apply first_with_id_absent in Hfind.
    set (x1 := OrderItem.mk i q1 n1 p1).
    assert (E1 : add_item x1 self = mkSessionState (order_items self ++ [x1]))
      by (apply add_item_absent; exact Hfind).
    assert (E2 : add_item (OrderItem.mk i q2 n2 p2)
                   (mkSessionState (order_items self ++ [x1]))
                 = mkSessionState
                     (order_items self
                        ++ [set_quantity x1 (OrderItem.quantity x1 + q2)]))
      by (apply (add_item_present (OrderItem.mk i q2 n2 p2) x1);
          [reflexivity | reflexivity | exact Hfind]).
    rewrite E1, E2. cbn [order_items].
    rewrite (lines_for_single i (order_items self) []
               (set_quantity x1 (OrderItem.quantity x1 + q2)) eq_refl Hfind
               (fun H => H)).
    split; [reflexivity|].
    rewrite !length_app. reflexivity.
Qed.

Lemma add_item_twice_merges_witness :
  map OrderItem.quantity
    (lines_for "burger-001"
       (add_item (OrderItem.mk "burger-001" 1 "Classic Burger" 5.99)
          (add_item (OrderItem.mk "burger-001" 2 "Classic Burger" 5.99)
             (mkSessionState [OrderItem.mk "side-001" 4 "Fries" 2.49]))))
  = [0 + 2 + 1]
  /\ List.length
       (order_items
          (add_item (OrderItem.mk "burger-001" 1 "Classic Burger" 5.99)
             (add_item (OrderItem.mk "burger-001" 2 "Classic Burger" 5.99)
                (mkSessionState [OrderItem.mk "side-001" 4 "Fries" 2.49]))))
     = List.length
         (order_items
            (add_item (OrderItem.mk "burger-001" 2 "Classic Burger" 5.99)
               (mkSessionState [OrderItem.mk "side-001" 4 "Fries" 2.49]))).
Proof.
  apply (add_item_twice_merges
           (mkSessionState [OrderItem.mk "side-001" 4 "Fries" 2.49])
           "burger-001" "Classic Burger" "Classic Burger" 2 1 5.99 5.99).
  - unfold unique_ids. simpl. constructor; [simpl; tauto | constructor].
  - lia.
  - lia.
Defined.

Lemma remove_item_absent (i : string) (qty : option Z) (self : SessionState) :
  ~ In i (line_ids (order_items self)) ->
  remove_item i qty self = (false, self).
Proof.
  intros H. unfold remove_item.
  apply first_with_id_absent in H. now rewrite H.
Qed.

Lemma remove_item_present (i : string) (qty : option Z) (x : OrderItem.t)
    (pre post : list OrderItem.t) (self : SessionState) :
  order_items self = pre ++ x :: post ->
  OrderItem.item_id x = i ->
  ~ In i (line_ids pre) ->
  remove_item i qty self
  = (true,
     match qty with
     | None => mkSessionState (pre ++ post)
     | Some q =>
         if OrderItem.quantity x <=? q then mkSessionState (pre ++ post)
         else mkSessionState
                (pre ++ set_quantity x (OrderItem.quantity x - q) :: post)
     end).
Proof.
  intros Hs Hx Hpre. unfold remove_item. rewrite Hs.
  destruct (at_first_line i pre post x Hx Hpre) as (H1 & H2 & H3).
  rewrite H1, H3.
  destruct qty as [q|]; [|reflexivity].
  rewrite H2.
  now destruct (OrderItem.quantity x <=? q).
Qed.

(** C5 -- removal.  With [x] the first line for [i], at quantity
    [current]: removing [q] with [1 <= q < current] keeps the line in
    place, with its id, name and price, and sets its quantity to
    [current - q]; removing [q >= current], or removing with no
    quantity, deletes the line, and with distinct ids no line for [i]
    is left; removing an id the cart does not hold returns [False] and
    the cart as it was. *)
Theorem remove_item_correct (self : SessionState) (i : string) :
  (forall qty,
     ~ In i (line_ids (order_items self)) ->
     remove_item i qty self = (false, self))
  /\ (forall pre x post,
        order_items self = pre ++ x :: post ->
        OrderItem.item_id x = i ->
        ~ In i (line_ids pre) ->
        let current := OrderItem.quantity x in
        (forall q, 1 <= q < current ->
           remove_item i (Some q) self
           = (true,
              mkSessionState
                (pre
                   ++ OrderItem.mk (OrderItem.item_id x) (current - q)
                        (OrderItem.name x) (OrderItem.price x)
                   :: post))
           /\ quantity_of i (snd (remove_item i (Some q) self)) = current - q)
        /\ (forall q, current <= q ->
              remove_item i (Some q) self
              = (true, mkSessionState (pre ++ post)))
        /\ remove_item i None self = (true, mkSessionState (pre ++ post))
        /\ (unique_ids self -> lines_for i (mkSessionState (pre ++ post)) = [])).
Proof.
  split.
  - intros qty H. now apply remove_item_absent.
  - intros pre x post Hs Hx Hpre current.
    repeat split.
    + rewrite (remove_item_present i (Some q) x pre post self Hs Hx Hpre).
      destruct (Z.leb_spec (OrderItem.quantity x) q); [subst current; lia|].
      reflexivity.
    + rewrite (remove_item_present i (Some q) x pre post self Hs Hx Hpre).
      destruct (Z.leb_spec (OrderItem.quantity x) q); [subst current; lia|].
      cbn [snd]. unfold quantity_of. cbn [order_items].
      destruct (at_first_line i pre post
                  (set_quantity x (OrderItem.quantity x - q)) Hx Hpre)
        as (H1 & _).
      now rewrite H1.
    + intros q Hq.
      rewrite (remove_item_present i (Some q) x pre post self Hs Hx Hpre).
      destruct (Z.leb_spec (OrderItem.quantity x) q); [|subst current; lia].
      reflexivity.
    + apply (remove_item_present i None x pre post self Hs Hx Hpre).
    + intros Huniq. unfold unique_ids in Huniq. rewrite Hs in Huniq.
      destruct (unique_ids_split i pre post x Hx Huniq) as (_ & Hpost).
      unfold lines_for. cbn [order_items]. rewrite filter_app.
      now rewrite (filter_absent i pre Hpre), (filter_absent i post Hpost).
Qed.

Lemma remove_item_correct_witness :
  remove_item "drink-001" (Some 1) fries_and_burgers
  = (false, fries_and_burgers)
  /\ remove_item "burger-001" (Some 2) fries_and_burgers
     = (true,
        mkSessionState
          [one_fries; OrderItem.mk "burger-001" 1 "Classic Burger" 5.99])
  /\ quantity_of "burger-001"
       (snd (remove_item "burger-001" (Some 2) fries_and_burgers))
     = 1
  /\ remove_item "burger-001" (Some 3) fries_and_burgers
     = (true, mkSessionState [one_fries])
  /\ remove_item "burger-001" None fries_and_burgers
     = (true, mkSessionState [one_fries])
  /\ lines_for "burger-001" (mkSessionState [one_fries]) = [].
Proof.
  destruct (remove_item_correct fries_and_burgers "burger-001")
    as [_ Hpresent].
  destruct (Hpresent [one_fries] three_burgers [] eq_refl eq_refl)
    as (Hsome & Hall & Hnone & Hgone).
  { simpl. intros [H|[]]. discriminate H. }
  split.
  { apply (remove_item_correct fries_and_burgers "drink-001").
    simpl. intros [H|[H|[]]]; discriminate H. }
  destruct (Hsome 2) as [Hcart Hquantity]; [simpl; lia|].
  split. { exact Hcart. }
  split. { exact Hquantity. }
  split. { apply Hall. simpl. lia. }
  split. { exact Hnone. }
  apply Hgone. unfold unique_ids. simpl.
  constructor.
  - simpl. intros [H|[]]. discriminate H.
  - constructor; [simpl; tauto | constructor].
Defined.

Lemma NoDup_snoc (l : list string) (a : string) :
  NoDup l -> ~ In a l -> NoDup (l ++ [a]).
Proof.
  induction l as [|b l IH]; simpl; intros Hl Ha.
  - constructor; [tauto | constructor].
  - inversion Hl as [|? ? Hb Hl']; subst.
    constructor.
    + rewrite in_app_iff. simpl. intuition congruence.
    + apply IH; tauto.
Qed.

Lemma line_ids_requantified (pre post : list OrderItem.t) (x : OrderItem.t)
    (q : Z) :
  line_ids (pre ++ set_quantity x q :: post) = line_ids (pre ++ x :: post).
Proof. now rewrite !line_ids_app. Qed.

Lemma positive_requantified (pre post : list OrderItem.t) (x : OrderItem.t)
    (q : Z) :
  1 <= q ->
  Forall (fun item => 1 <= OrderItem.quantity item) (pre ++ x :: post) ->
  Forall (fun item => 1 <= OrderItem.quantity item)
    (pre ++ set_quantity x q :: post).
Proof.
  intros Hq H. apply Forall_app in H. destruct H as [Hpre Hpost].
  apply Forall_app. split; [assumption|].
  inversion Hpost; subst. constructor; assumption.
Qed.

Lemma positive_deleted (pre post : list OrderItem.t) (x : OrderItem.t) :
  Forall (fun item => 1 <= OrderItem.quantity item) (pre ++ x :: post) ->
  Forall (fun item => 1 <= OrderItem.quantity item) (pre ++ post).
Proof.
  intros H. apply Forall_app in H. destruct H as [Hpre Hpost].
  apply Forall_app. split; [assumption|]. now inversion Hpost.
Qed.

Lemma add_item_invariant (item : OrderItem.t) (self : SessionState) :
  cart_invariant self ->
  1 <= OrderItem.quantity item ->
  cart_invariant (add_item item self).
Proof.
  intros [Hpos Huniq] Hq.
  unfold quantities_positive, unique_ids in *.
  destruct (first_with_id (OrderItem.item_id item) (order_items self))
    as [x|] eqn:Hfind.
  - destruct (first_with_id_split _ _ x Hfind)
      as (pre & post & Hs & Hx & Hpre).
    rewrite (add_item_present item x pre post self Hs Hx Hpre).
    rewrite Hs in Hpos, Huniq.
    split; unfold quantities_positive, unique_ids; cbn [order_items].
    + apply positive_requantified; [|assumption].
      apply Forall_app in Hpos. destruct Hpos as [_ Hpos].
      inversion Hpos; subst. lia.
    + now rewrite line_ids_requantified.
  - apply first_with_id_absent in Hfind.
    rewrite (add_item_absent item self Hfind).
    split; unfold quantities_positive, unique_ids; cbn [order_items].
    + apply Forall_app. split; [assumption|]. constructor; [assumption|constructor].
    + rewrite line_ids_app. simpl. now apply NoDup_snoc.
Qed.

Lemma remove_item_invariant (i : string) (qty : option Z)
    (self : SessionState) :
  cart_invariant self ->
  cart_invariant (snd (remove_item i qty self)).
Proof.
  intros [Hpos Huniq].
  unfold quantities_positive, unique_ids in *.
  destruct (first_with_id i (order_items self)) as [x|] eqn:Hfind.
  - destruct (first_with_id_split _ _ x Hfind)
      as (pre & post & Hs & Hx & Hpre).
    rewrite (remove_item_present i qty x pre post self Hs Hx Hpre).
    rewrite Hs in Hpos, Huniq. cbn [snd].
    assert (Hdel : cart_invariant (mkSessionState (pre ++ post))).
    { split; unfold quantities_positive, unique_ids; cbn [order_items].
      - now apply positive_deleted with x.
      - rewrite line_ids_app in *. simpl in Huniq.
        now apply NoDup_remove_1 in Huniq. }
    destruct qty as [q|]; [|exact Hdel].
    destruct (Z.leb_spec (OrderItem.quantity x) q); [exact Hdel|].
    split; unfold quantities_positive, unique_ids; cbn [order_items].
    + apply positive_requantified; [lia | assumption].
    + now rewrite line_ids_requantified.
  - apply first_with_id_absent in Hfind.
    rewrite (remove_item_absent i qty self Hfind). now split.
Qed.

Lemma apply_op_invariant (op : CartOp) (self : SessionState) :
  cart_invariant self ->
  op_valid op ->
  cart_invariant (apply_op op self).
Proof.
  intros Hinv Hop.
  destruct op as [item|i qty|]; simpl.
  - now apply add_item_invariant.
  - now apply remove_item_invariant.
  - split; constructor.
Qed.

(** The invariant holds along every run of valid operations that starts
    from the empty cart. *)
Corollary cart_invariant_reachable (ops : list CartOp) :
  Forall op_valid ops ->
  cart_invariant (run_ops ops (mkSessionState [])).
Proof.
  unfold run_ops.
  assert (H0 : cart_invariant (mkSessionState []))
    by (split; constructor).
  revert H0. generalize (mkSessionState []).
  induction ops as [|op ops IH]; simpl; intros s Hs Hops; [exact Hs|].
  inversion Hops; subst.
  apply IH; [|assumption].
  now apply apply_op_invariant.
Qed.

(** C6 -- invariants.  An operation of the cart (add of a constructed
    [OrderItem], remove with any argument, clear) applied to a cart in
    which every line has quantity at least 1 and no two lines share an
    id gives such a cart again; in particular it holds no line of
    quantity 0. *)
Theorem cart_invariant_preserved (op : CartOp) (self : SessionState) :
  cart_invariant self ->
  op_valid op ->
  cart_invariant (apply_op op self)
  /\ Forall (fun item => OrderItem.quantity item <> 0)
       (order_items (apply_op op self)).
Proof.
  intros Hinv Hop.
  pose proof (apply_op_invariant op self Hinv Hop) as H.
  split; [exact H|].
  destruct H as [Hpos _]. unfold quantities_positive in Hpos.
  eapply Forall_impl; [|exact Hpos]. simpl. intros a Ha. lia.
Qed.

Lemma cart_invariant_preserved_witness :
  cart_invariant (apply_op (Remove "burger-001" (Some 1)) fries_and_burgers)
  /\ Forall (fun item => OrderItem.quantity item <> 0)
       (order_items
          (apply_op (Remove "burger-001" (Some 1)) fries_and_burgers)).
Proof.
  apply (cart_invariant_preserved (Remove "burger-001" (Some 1))
           fries_and_burgers).
  - split.
    + unfold quantities_positive. simpl.
      repeat constructor; simpl; lia.
    + unfold unique_ids. simpl.
      constructor.
      * simpl. intros [H|[]]. discriminate H.
      * constructor; [simpl; tauto | constructor].
  - exact I.
Defined.

(** C10 -- [remove_item] does not validate its quantity.  With [x] the
    first line for [i], at quantity [c >= 1], and [q <= 0]:
    [remove_item(i, q)] returns [True] and sets the quantity of that
    line to [c - q], the rest of the cart untouched; the cart then
    holds [c - q] for [i], what it held before when [q = 0] and more
    when [q < 0].  The check [quantity >= 1] sits in the handler of the
    remove tool: called with such a [q] it answers with an error text
    and changes nothing. *)
Theorem remove_item_nonpositive_quantity (self : SessionState) (i : string)
    (pre post : list OrderItem.t) (x : OrderItem.t) (q : Z) :
  order_items self = pre ++ x :: post ->
  OrderItem.item_id x = i ->
  ~ In i (line_ids pre) ->
  1 <= OrderItem.quantity x ->
  q <= 0 ->
  let c := OrderItem.quantity x in
  remove_item i (Some q) self
  = (true,
     mkSessionState
       (pre
          ++ OrderItem.mk (OrderItem.item_id x) (c - q) (OrderItem.name x)
               (OrderItem.price x)
          :: post))
  /\ quantity_of i self = c
  /\ quantity_of i (snd (remove_item i (Some q) self)) = c - q
  /\ (q = 0 ->
      quantity_of i (snd (remove_item i (Some q) self)) = quantity_of i self)
  /\ (q < 0 ->
      quantity_of i self < quantity_of i (snd (remove_item i (Some q) self)))
  /\ forall w,
       session_state w = self ->
       RemoveItemFromOrderFunction._handle_remove_item
         (mkParams (Some i) (Some q)) w
       = (Returned
            (if String.eqb i "" then "Error: item_id is required"
             else "Error: quantity to remove must be at least 1"),
          w).
Proof.
  intros Hs Hx Hpre Hc Hq c.
  assert (Hremove :
    remove_item i (Some q) self
    = (true,
       mkSessionState
         (pre ++ set_quantity x (OrderItem.quantity x - q) :: post))).
  { rewrite (remove_item_present i (Some q) x pre post self Hs Hx Hpre).
    destruct (Z.leb_spec (OrderItem.quantity x) q); [lia | reflexivity]. }
  assert (Hbefore : quantity_of i self = c).
  { unfold quantity_of. rewrite Hs.
    destruct (at_first_line i pre post x Hx Hpre) as (H1 & _).
    now rewrite H1. }
  assert (Hafter :
    quantity_of i (snd (remove_item i (Some q) self)) = c - q).
  { rewrite Hremove. cbn [snd]. unfold quantity_of. cbn [order_items].
    destruct (at_first_line i pre post
                (set_quantity x (OrderItem.quantity x - q)) Hx Hpre)
      as (H1 & _).
    now rewrite H1. }
  split; [exact Hremove|].
  split; [exact Hbefore|].
  split; [exact Hafter|].
  split; [intros ->; rewrite Hafter, Hbefore; lia|].
  split; [intros Hneg; rewrite Hafter, Hbefore; lia|].
  intros w Hw.
  unfold RemoveItemFromOrderFunction._handle_remove_item.
  cbn [arguments_item_id arguments_quantity].
  destruct (String.eqb i ""); [reflexivity|].
  unfold bind, get_session_state, ret.
  rewrite Hw, Hs.
  destruct (at_first_line i pre post x Hx Hpre) as (H1 & _ & _).
  rewrite H1.
  destruct (Z.ltb_spec q 1); [reflexivity | lia].
Qed.

Lemma remove_item_nonpositive_quantity_witness :
  remove_item "burger-001" (Some (-2)) fries_and_burgers
  = (true,
     mkSessionState
       [one_fries; OrderItem.mk "burger-001" 5 "Classic Burger" 5.99])
  /\ quantity_of "burger-001" fries_and_burgers = 3
  /\ quantity_of "burger-001"
       (snd (remove_item "burger-001" (Some (-2)) fries_and_burgers))
     = 5
  /\ RemoveItemFromOrderFunction._handle_remove_item
       (mkParams (Some "burger-001") (Some (-2)))
       (mkWorld fries_and_burgers [] [])
     = (Returned "Error: quantity to remove must be at least 1",
        mkWorld fries_and_burgers [] []).
Proof.
  destruct (remove_item_nonpositive_quantity fries_and_burgers "burger-001"
              [one_fries] [] three_burgers (-2))
    as (Hmethod & Hbefore & Hafter & _ & _ & Hhandler).
  - reflexivity.
  - reflexivity.
  - simpl. intros [H|[]]. discriminate H.
  - simpl. lia.
  - lia.
  - split; [exact Hmethod|].
    split; [exact Hbefore|].
    split; [exact Hafter|].
    apply (Hhandler (mkWorld fries_and_burgers [] [])). reflexivity.
Defined.

(* ================================================================== *)
(** ** Order lifecycle: [create_order] *)
(* ================================================================== *)

(** C3 -- empty cart.  On an empty cart the handler of [create_order]
    returns the text saying that the order is empty and leaves the world
    as it found it: no request is sent to the endpoint, nothing is added
    to the cart. *)
Theorem create_order_on_empty_cart (api_client : ApiClient) (w : World) :
  order_items (session_state w) = [] ->
  CreateOrderFunction._handle_create_order api_client w
  = (Returned
       "Error: Your order is empty. Please add some items before placing your order.",
     w)
  /\ api_requests
       (snd (CreateOrderFunction._handle_create_order api_client w))
     = api_requests w
  /\ order_items
       (session_state
          (snd (CreateOrderFunction._handle_create_order api_client w)))
     = [].
Proof.
  intros Hempty.
  assert (E : CreateOrderFunction._handle_create_order api_client w
              = (Returned CreateOrderFunction.empty_order, w)).
  { unfold CreateOrderFunction._handle_create_order. unfold_handler.
    now rewrite Hempty. }
  rewrite E. cbn [snd]. auto.
Qed.

Lemma create_order_on_empty_cart_witness :
  CreateOrderFunction._handle_create_order (mock_client example_menu "X")
    new_session
  = (Returned
       "Error: Your order is empty. Please add some items before placing your order.",
     new_session)
  /\ api_requests
       (snd (CreateOrderFunction._handle_create_order
               (mock_client example_menu "X") new_session))
     = api_requests new_session
  /\ order_items
       (session_state
          (snd (CreateOrderFunction._handle_create_order
                  (mock_client example_menu "X") new_session)))
     = [].
Proof.
  apply (create_order_on_empty_cart (mock_client example_menu "X") new_session).
  reflexivity.
Defined.

Lemma handle_create_order_nonempty (api_client : ApiClient) (w : World) :
  order_items (session_state w) <> [] ->
  let api_items :=
    CreateOrderFunction.api_items_of (order_items (session_state w)) in
  CreateOrderFunction._handle_create_order api_client w
  = match api_client api_items with
    | Returned order_response =>
        (Returned (CreateOrderFunction.confirmed order_response),
         delivered (CreateOrderFunction.confirmed order_response)
           (with_session_state (mkSessionState []) (submitted api_items w)))
    | Raised _ =>
        (Returned CreateOrderFunction.apology,
         delivered CreateOrderFunction.apology (submitted api_items w))
    end.
Proof.
  intros Hne api_items. subst api_items.
  unfold CreateOrderFunction._handle_create_order. unfold_handler.
  destruct (order_items (session_state w)) as [|x rest] eqn:E;
    [congruence|].
  cbn [session_state]. rewrite E.
  now destruct (api_client _).
Qed.

(** C1 -- failed submission.  On a non-empty cart, when the call to the
    order-submission endpoint raises, the handler returns the apology
    text (it does not raise), the session state -- hence every line, in
    order, and the total -- is the one it had before the call, and the
    apology is what went through the callback. *)
Theorem create_order_failure_keeps_cart (api_client : ApiClient) (w : World)
    (e : exn) :
  order_items (session_state w) <> [] ->
  api_client (CreateOrderFunction.api_items_of (order_items (session_state w)))
  = Raised e ->
  let (r, w') := CreateOrderFunction._handle_create_order api_client w in
  r = Returned
        "Sorry, there was an error processing your order. Your items are still in your cart. Please try again in a moment."
  /\ session_state w' = session_state w
  /\ order_items (session_state w') = order_items (session_state w)
  /\ calculate_total (session_state w') = calculate_total (session_state w)
  /\ callback_results w'
     = callback_results w
         ++ ["Sorry, there was an error processing your order. Your items are still in your cart. Please try again in a moment."].
Proof.
  intros Hne Hraise.
  rewrite (handle_create_order_nonempty api_client w Hne).
  rewrite Hraise. cbn. auto.
Qed.

Lemma create_order_failure_keeps_cart_witness :
  let (r, w') :=
    CreateOrderFunction._handle_create_order
      (fun _ => Raised (Exception "connection refused")) three_fries in
  r = Returned
        "Sorry, there was an error processing your order. Your items are still in your cart. Please try again in a moment."
  /\ session_state w' = session_state three_fries
  /\ order_items (session_state w') = order_items (session_state three_fries)
  /\ calculate_total (session_state w')
     = calculate_total (session_state three_fries)
  /\ callback_results w'
     = callback_results three_fries
         ++ ["Sorry, there was an error processing your order. Your items are still in your cart. Please try again in a moment."].
Proof.
  apply (create_order_failure_keeps_cart
           (fun _ => Raised (Exception "connection refused")) three_fries
           (Exception "connection refused")).
  - vm_compute. discriminate.
  - reflexivity.
Defined.

(** The backend's loop stops at the first product that raises. *)
Lemma order_total_raised (MENU_ITEMS : list MenuItem.t)
    (items : list ApiItem.t) (e : exn) :
  fold_left
    (fun total order_item =>
       (total <- total ;;
        match
          BurgerAPIClient.menu_dict_get MENU_ITEMS (ApiItem.item_id order_item)
        with
        | Some item =>
            product <-
              Py.float_mul_int (MenuItem.price item)
                (ApiItem.quantity order_item) ;;
            Returned (PrimFloat.add total product)
        | None => Returned total
        end)%result)
    items (Raised e)
  = Raised e.
Proof. induction items as [|x rest IH]; [reflexivity | exact IH]. Qed.

(** For a cart whose lines are on the backend's menu at the prices they
    carry, the backend's loop adds the products of the lines, in cart
    order, one after the other. *)
Lemma order_total_running_sum (MENU_ITEMS : list MenuItem.t)
    (self : SessionState) :
  lines_on_menu MENU_ITEMS self ->
  BurgerAPIClient.order_total MENU_ITEMS
    (CreateOrderFunction.api_items_of (order_items self))
  = (products <- Py.map_result line_total (order_items self) ;;
     Returned (fold_left PrimFloat.add products 0%float))%result.
Proof.
  unfold lines_on_menu, BurgerAPIClient.order_total,
    CreateOrderFunction.api_items_of.
  generalize 0%float.
  induction (order_items self) as [|item rest IH]; intros acc H;
    [reflexivity|].
  inversion H as [|? ? Hitem Hrest]; subst.
  cbn [map fold_left ApiItem.item_id ApiItem.quantity Py.map_result and_then].
  destruct (BurgerAPIClient.menu_dict_get MENU_ITEMS (OrderItem.item_id item))
    as [m|]; [|discriminate Hitem].
  injection Hitem as Hprice. rewrite Hprice. fold (line_total item).
  destruct (line_total item) as [product|e]; cbn [and_then].
  - rewrite (IH (PrimFloat.add acc product) Hrest).
    now destruct (Py.map_result line_total rest).
  - apply order_total_raised.
Qed.

Lemma order_total_on_menu (MENU_ITEMS : list MenuItem.t)
    (self : SessionState) :
  lines_on_menu MENU_ITEMS self ->
  BurgerAPIClient.order_total MENU_ITEMS
    (CreateOrderFunction.api_items_of (order_items self))
  = calculate_total self.
Proof. apply order_total_running_sum. Qed.

(** C2, as amended -- successful submission.  On a non-empty cart, when
    the call to the endpoint returns a response, the handler sends the
    lines once, in order, empties the cart, and returns and delivers the
    confirmation that prints the response's total with two decimals.
    The repository's client is [BurgerAPIClient.create_order]: its
    total [t] is the backend's own sum over the submitted lines it finds
    on its menu.  When every line is on that menu at the price the line
    carries, [t] is made of the products of the cart's lines, added to
    0.0 one after the other in cart order; for a cart of one line this
    is [calculate_total()].  When the sum is a float the response is
    confirmed with total [round(t, 2)]; when the sum raises (a quantity
    too large for a float) the client raises, and the handler answers
    with the apology and keeps the cart. *)
Theorem create_order_success_clears_cart (w : World) :
  order_items (session_state w) <> [] ->
  let api_items :=
    CreateOrderFunction.api_items_of (order_items (session_state w)) in
  (forall api_client order_response,
     api_client api_items = Returned order_response ->
     CreateOrderFunction._handle_create_order api_client w
     = (Returned
          ("Order confirmed! Your order ID is " ++ order_id order_response
             ++ ". Total: $" ++ Py.format_2f (total order_response)
             ++ ". Thank you for your order!")%string,
        mkWorld (mkSessionState []) (api_requests w ++ [api_items])
          (callback_results w
             ++ [("Order confirmed! Your order ID is "
                    ++ order_id order_response
                    ++ ". Total: $" ++ Py.format_2f (total order_response)
                    ++ ". Thank you for your order!")%string])))
  /\ (forall MENU_ITEMS uuid4,
        mock_client MENU_ITEMS uuid4 api_items
        = BurgerAPIClient.create_order MENU_ITEMS uuid4 api_items
        /\ (lines_on_menu MENU_ITEMS (session_state w) ->
            BurgerAPIClient.order_total MENU_ITEMS api_items
            = match
                Py.map_result line_total (order_items (session_state w))
              with
              | Returned products =>
                  Returned (fold_left PrimFloat.add products 0%float)
              | Raised e => Raised e
              end
            /\ (forall item,
                  order_items (session_state w) = [item] ->
                  BurgerAPIClient.order_total MENU_ITEMS api_items
                  = calculate_total (session_state w)))
        /\ (forall t,
              BurgerAPIClient.order_total MENU_ITEMS api_items = Returned t ->
              mock_client MENU_ITEMS uuid4 api_items
              = Returned
                  (mkCreateOrderResponse uuid4 (Py.round_2 t) "confirmed"))
        /\ (forall e,
              BurgerAPIClient.order_total MENU_ITEMS api_items = Raised e ->
              mock_client MENU_ITEMS uuid4 api_items = Raised e
              /\ CreateOrderFunction._handle_create_order
                   (mock_client MENU_ITEMS uuid4) w
                 = (Returned
                      "Sorry, there was an error processing your order. Your items are still in your cart. Please try again in a moment.",
                    mkWorld (session_state w) (api_requests w ++ [api_items])
                      (callback_results w
                         ++ ["Sorry, there was an error processing your order. Your items are still in your cart. Please try again in a moment."])))).
Proof.
  intros Hne api_items. split.
  - intros api_client order_response Hok.
    rewrite (handle_create_order_nonempty api_client w Hne).
    fold api_items. rewrite Hok. reflexivity.
  - intros MENU_ITEMS uuid4.
    split; [reflexivity|].
    split.
    { intros Hmenu. split.
      - unfold api_items. rewrite (order_total_running_sum _ _ Hmenu).
        now destruct (Py.map_result line_total _).
      - intros item _. now apply order_total_on_menu. }
    split.
    + intros t Ht. unfold mock_client, BurgerAPIClient.create_order.
      now rewrite Ht.
    + intros e He.
      assert (Hclient : mock_client MENU_ITEMS uuid4 api_items = Raised e).
      { unfold mock_client, BurgerAPIClient.create_order. now rewrite He. }
      split; [exact Hclient|].
      rewrite (handle_create_order_nonempty _ w Hne).
      fold api_items. rewrite Hclient. reflexivity.
Qed.

Lemma create_order_success_clears_cart_witness :
  CreateOrderFunction._handle_create_order (mock_client example_menu "X")
    three_fries
  = (Returned
       "Order confirmed! Your order ID is X. Total: $7.47. Thank you for your order!",
     mkWorld (mkSessionState [])
       [[ApiItem.mk "side-001" 3]]
       ["Added 3 Fries(s) to your order. Current order total: $7.47";
        "Order confirmed! Your order ID is X. Total: $7.47. Thank you for your order!"])
  /\ BurgerAPIClient.order_total example_menu
       (CreateOrderFunction.api_items_of
          (order_items (session_state three_fries)))
     = calculate_total (session_state three_fries)
  /\ CreateOrderFunction._handle_create_order (mock_client example_menu "X")
       too_many_burgers
     = (Returned
          "Sorry, there was an error processing your order. Your items are still in your cart. Please try again in a moment.",
        mkWorld (session_state too_many_burgers)
          [[ApiItem.mk "burger-001" (2 ^ 1024)]]
          ["Sorry, there was an error processing your order. Your items are still in your cart. Please try again in a moment."]).
Proof.
  destruct (create_order_success_clears_cart three_fries) as [Hany Hmock].
  { vm_compute. discriminate. }
  destruct (create_order_success_clears_cart too_many_burgers)
    as [_ Hraises].
  { vm_compute. discriminate. }
  split; [|split].
  - apply (Hany (mock_client example_menu "X")
             (mkCreateOrderResponse "X" 7.47 "confirmed")).
    vm_compute. reflexivity.
  - destruct (Hmock example_menu "X") as (_ & Hsum & _).
    destruct Hsum as [_ Hone].
    + unfold lines_on_menu. vm_compute. repeat constructor.
    + apply (Hone (OrderItem.mk "side-001" 3 "Fries" 2.49)). reflexivity.
  - destruct (Hraises example_menu "X") as (_ & _ & _ & Hraise).
    destruct (Hraise (OverflowError "int too large to convert to float"))
      as [_ Hhandler].
    + vm_compute. reflexivity.
    + exact Hhandler.
Defined.

(** The statement of C2 as it was written fails in two ways.  After
    three [side-001] at 2.49 were added through the add tool, the cart's
    total is the float 2.49 * 3 = 7.470000000000001 while the response
    carries [round(7.470000000000001, 2)] = 7.47.  And a line added at
    5.99 is charged by the backend at its menu's price, 6.49 once the
    menu has changed. *)
Lemma create_order_total_claim_counterexample :
  ~ create_order_total_claim example_menu "X" three_fries
  /\ ~ create_order_total_claim repriced_menu "X" one_burger.
Proof.
  split; intros H.
  - assert (Hne : order_items (session_state three_fries) <> [])
      by (vm_compute; discriminate).
    specialize (H Hne).
    destruct (CreateOrderFunction._handle_create_order _ _) as [r w'].
    destruct H as (response & Hresponse & _ & _ & Htotal).
    vm_compute in Hresponse. apply returned_inj in Hresponse.
    subst response.
    vm_compute in Htotal. apply returned_inj in Htotal.
    revert Htotal. apply float_neq. vm_compute. discriminate.
  - assert (Hne : order_items (session_state one_burger) <> [])
      by (vm_compute; discriminate).
    specialize (H Hne).
    destruct (CreateOrderFunction._handle_create_order _ _) as [r w'].
    destruct H as (response & Hresponse & _ & _ & Htotal).
    vm_compute in Hresponse. apply returned_inj in Hresponse.
    subst response.
    vm_compute in Htotal. apply returned_inj in Htotal.
    revert Htotal. apply float_neq. vm_compute. discriminate.
Qed.

(* ================================================================== *)
(** ** The add tool *)
(* ================================================================== *)

(** C9, as amended -- the cases of [add_item_to_order], in the order the
    handler checks them; an omitted quantity counts as 1.
      - [item_id] missing or empty: "item_id is required", nothing
        changes;
      - else quantity below 1: "quantity must be at least 1", nothing
        changes;
      - else no catalog entry with this id: the error text that lists
        the ids of the first five catalog entries, nothing changes;
      - else, the entry's price being rejected by [OrderItem] (not at
        least 0): the validation error leaves the handler, nothing
        changes;
      - else the line is merged into the cart by [add_item], and the
        total of the new cart is computed.  When that raises (a quantity
        too large for a float), or when the quantity cannot be printed,
        the exception leaves the handler: the line stays merged and
        nothing is delivered.  Otherwise the text returned, which is
        also delivered, ends with the new total printed with two
        decimals.  The total is a float as soon as every quantity of
        the new cart is within the range of floats. *)
Theorem handle_add_item_cases (catalog : list MenuItem.t)
    (params : FunctionCallParams) (w : World) :
  let quantity :=
    match arguments_quantity params with Some q => q | None => 1 end in
  let run := AddItemToOrderFunction._handle_add_item catalog params w in
  (Py.falsy (arguments_item_id params) = true ->
   run = (Returned "Error: item_id is required", w))
  /\ (forall i,
        arguments_item_id params = Some i ->
        i <> ""%string ->
        (quantity < 1 ->
         run = (Returned "Error: quantity must be at least 1", w))
        /\ (1 <= quantity ->
            match find (fun item => String.eqb (MenuItem.id item) i) catalog
            with
            | None =>
                run
                = (Returned
                     ("Error: Item '" ++ i
                        ++ "' not found in menu. Available items include: "
                        ++ Py.join ", " (map MenuItem.id (firstn 5 catalog)))%string,
                   w)
            | Some menu_item =>
                (PrimFloat.leb 0 (MenuItem.price menu_item) = false ->
                 run
                 = (Raised
                      (ValidationError
                         "price: Input should be greater than or equal to 0"),
                    w))
                /\ (PrimFloat.leb 0 (MenuItem.price menu_item) = true ->
                    let cart :=
                      add_item
                        (OrderItem.mk i quantity (MenuItem.name menu_item)
                           (MenuItem.price menu_item))
                        (session_state w) in
                    let merged :=
                      mkWorld cart (api_requests w) (callback_results w) in
                    match calculate_total cart with
                    | Raised e => run = (Raised e, merged)
                    | Returned total =>
                        match Py.str_int quantity with
                        | Raised e => run = (Raised e, merged)
                        | Returned printed =>
                            let response :=
                              ("Added " ++ printed ++ " "
                                 ++ MenuItem.name menu_item
                                 ++ "(s) to your order. Current order total: $"
                                 ++ Py.format_2f total)%string in
                            run
                            = (Returned response,
                               mkWorld cart (api_requests w)
                                 (callback_results w ++ [response]))
                        end
                    end
                    /\ (quantities_in_float_range cart ->
                        exists total, calculate_total cart = Returned total)
                    /\ (quantity < Py.int_str_limit ->
                        Py.str_int quantity = Returned (Py.digits quantity)))
            end)).
Proof.
  intros quantity run. subst run.
  unfold AddItemToOrderFunction._handle_add_item. fold quantity.
  split.
  - intros Hfalsy. destruct (arguments_item_id params) as [i|];
      [|reflexivity].
    cbn [Py.falsy] in Hfalsy. now rewrite Hfalsy.
  - intros i Hi Hne. rewrite Hi.
    apply String.eqb_neq in Hne. rewrite Hne.
    split.
    + intros Hq. destruct (Z.ltb_spec quantity 1); [reflexivity | lia].
    + intros Hq. destruct (Z.ltb_spec quantity 1); [lia|].
      destruct (find _ catalog) as [menu_item|]; [|reflexivity].
      split.
      * intros Hprice. unfold_handler. unfold new_OrderItem.
        destruct (Z.leb_spec 1 quantity); [|lia].
        rewrite Hprice. reflexivity.
      * intros Hprice.
        split; [|split].
        -- unfold_handler. unfold new_OrderItem.
           destruct (Z.leb_spec 1 quantity); [|lia].
           rewrite Hprice. cbn [negb session_state].
           destruct (calculate_total _) as [total|e]; [|reflexivity].
           unfold AddItemToOrderFunction.logged, AddItemToOrderFunction.added.
           destruct (Py.str_int quantity) as [printed|e]; reflexivity.
        -- apply calculate_total_returns.
        -- intros Hprint. apply str_int_returns. lia.
Qed.

Lemma handle_add_item_cases_witness :
  AddItemToOrderFunction._handle_add_item example_menu
    (mkParams (Some "burger-001") None) new_session
  = (Returned
       "Added 1 Classic Burger(s) to your order. Current order total: $5.99",
     mkWorld
       (mkSessionState [OrderItem.mk "burger-001" 1 "Classic Burger" 5.99])
       []
       ["Added 1 Classic Burger(s) to your order. Current order total: $5.99"])
  /\ AddItemToOrderFunction._handle_add_item example_menu
       (mkParams (Some "burger-001") (Some (2 ^ 1024))) new_session
     = (Raised (OverflowError "int too large to convert to float"),
        mkWorld
          (mkSessionState
             [OrderItem.mk "burger-001" (2 ^ 1024) "Classic Burger" 5.99])
          [] [])
  /\ AddItemToOrderFunction._handle_add_item menu_with_refund
       (mkParams (Some "refund-001") None) new_session
     = (Raised
          (ValidationError "price: Input should be greater than or equal to 0"),
        new_session)
  /\ AddItemToOrderFunction._handle_add_item example_menu
       (mkParams (Some "burger-001") (Some 0)) new_session
     = (Returned "Error: quantity must be at least 1", new_session)
  /\ AddItemToOrderFunction._handle_add_item example_menu
       (mkParams (Some "pizza-001") (Some 2)) new_session
     = (Returned
          "Error: Item 'pizza-001' not found in menu. Available items include: burger-001, side-001",
        new_session)
  /\ AddItemToOrderFunction._handle_add_item example_menu
       (mkParams None (Some 2)) new_session
     = (Returned "Error: item_id is required", new_session).
Proof.
  split; [|split; [|split; [|split; [|split]]]].
  - destruct (handle_add_item_cases example_menu
                (mkParams (Some "burger-001") None) new_session)
      as [_ H].
    destruct (H "burger-001" eq_refl) as [_ Hfound]; [discriminate|].
    destruct Hfound as [_ Hmerge]; [simpl; lia|].
    destruct Hmerge as [Hrun _]; [reflexivity|].
    exact Hrun.
  - destruct (handle_add_item_cases example_menu
                (mkParams (Some "burger-001") (Some (2 ^ 1024))) new_session)
      as [_ H].
    destruct (H "burger-001" eq_refl) as [_ Hfound]; [discriminate|].
    destruct Hfound as [_ Hmerge]; [vm_compute; discriminate|].
    destruct Hmerge as [Hrun _]; [reflexivity|].
    exact Hrun.
  - destruct (handle_add_item_cases menu_with_refund
                (mkParams (Some "refund-001") None) new_session)
      as [_ H].
    destruct (H "refund-001" eq_refl) as [_ Hfound]; [discriminate|].
    destruct Hfound as [Hrefused _]; [simpl; lia|].
    apply Hrefused. reflexivity.
  - destruct (handle_add_item_cases example_menu
                (mkParams (Some "burger-001") (Some 0)) new_session)
      as [_ H].
    destruct (H "burger-001" eq_refl) as [Hlow _]; [discriminate|].
    apply Hlow. simpl. lia.
  - destruct (handle_add_item_cases example_menu
                (mkParams (Some "pizza-001") (Some 2)) new_session)
      as [_ H].
    destruct (H "pizza-001" eq_refl) as [_ Hmiss]; [discriminate|].
    apply Hmiss. simpl. lia.
  - destruct (handle_add_item_cases example_menu
                (mkParams None (Some 2)) new_session)
      as [H _].
    apply H. reflexivity.
Defined.

(** The statement of C9 as it was written fails for an empty [item_id]
    with a valid quantity: the id is not in the catalog, and the handler
    answers "item_id is required", a text that lists no ids. *)
Lemma add_item_to_order_claim_counterexample :
  ~ add_item_to_order_claim example_menu (mkParams (Some "") (Some 1))
      new_session.
Proof.
  unfold add_item_to_order_claim. cbn. intros [_ H].
  specialize (H ltac:(lia) ""%string eq_refl). cbn in H.
  destruct H as (_ & (text & E) & _).
  apply returned_inj in E.
  repeat (destruct text as [|? text]; cbn in E;
          [discriminate E | injection E as _ E]).
  destruct text; discriminate E.
Qed.

(** A handled cart error carries the prefix looked for by [is_error]. *)
Lemma add_item_errors_are_errors (i : string) (catalog : list MenuItem.t) :
  is_error (Returned "Error: item_id is required")
  /\ is_error (Returned "Error: quantity must be at least 1")
  /\ is_error (Returned (AddItemToOrderFunction.not_found i catalog)).
Proof. repeat split. Qed.

(* ================================================================== *)
(** ** The result callback *)
(* ================================================================== *)

Lemma add_item_callback_discipline (catalog : list MenuItem.t)
    (params : FunctionCallParams) (w : World) :
  callback_discipline w
    (AddItemToOrderFunction._handle_add_item catalog params w).
Proof.
  unfold callback_discipline, AddItemToOrderFunction._handle_add_item.
  destruct (arguments_item_id params) as [i|]; [|now left].
  destruct (String.eqb i ""); [now left|].
  destruct (_ <? 1); [now left|].
  destruct (find _ catalog) as [menu_item|]; [|now left].
  unfold_handler.
  destruct (new_OrderItem _ _ _ _); [|now left].
  cbn [session_state].
  destruct (calculate_total _); [|now left].
  destruct (AddItemToOrderFunction.logged _ _); [|now left].
  destruct (AddItemToOrderFunction.added _ _ _); [|now left].
  right. eexists. split; reflexivity.
Qed.

Lemma remove_item_callback_discipline (params : FunctionCallParams)
    (w : World) :
  callback_discipline w
    (RemoveItemFromOrderFunction._handle_remove_item params w).
Proof.
  unfold callback_discipline, RemoveItemFromOrderFunction._handle_remove_item.
  destruct (arguments_item_id params) as [i|]; [|now left].
  destruct (String.eqb i ""); [now left|].
  unfold_handler.
  destruct (first_with_id i (order_items (session_state w))) as [x|];
    [|now left].
  destruct (match arguments_quantity params with
            | Some q => q <? 1
            | None => false
            end); [now left|].
  destruct (remove_item i (arguments_quantity params) (session_state w))
    as [removed self'].
  destruct removed; cbn; [|now left].
  destruct (RemoveItemFromOrderFunction.logged _ _ _); [|now left].
  cbn.
  destruct (order_items self') as [|y rest]; [now left|].
  destruct (calculate_total self'); [|now left].
  destruct (match arguments_quantity params with
            | Some q => _
            | None => _
            end); [|now left].
  right. eexists. split; reflexivity.
Qed.

Lemma create_order_callback_discipline (api_client : ApiClient) (w : World) :
  callback_discipline w
    (CreateOrderFunction._handle_create_order api_client w).
Proof.
  unfold callback_discipline.
  destruct (order_items (session_state w)) as [|x rest] eqn:E.
  - unfold CreateOrderFunction._handle_create_order. unfold_handler.
    rewrite E. now left.
  - rewrite handle_create_order_nonempty by (rewrite E; discriminate).
    right. destruct (api_client _); eexists; split; reflexivity.
Qed.

Lemma read_order_callback_discipline (w : World) :
  callback_discipline w (ReadCurrentOrderFunction._handle_read_order w).
Proof.
  unfold callback_discipline, ReadCurrentOrderFunction._handle_read_order.
  unfold_handler.
  destruct (order_items (session_state w)); [now left|].
  destruct (Py.map_result _ _); [|now left].
  destruct (calculate_total _); [|now left].
  right. eexists. split; reflexivity.
Qed.

Lemma calculate_total_callback_discipline (w : World) :
  callback_discipline w
    (CalculateOrderTotalFunction._handle_calculate_total w).
Proof.
  unfold callback_discipline,
    CalculateOrderTotalFunction._handle_calculate_total.
  unfold_handler.
  destruct (order_items (session_state w)); [now left|].
  destruct (Py.map_result _ _); [|now left].
  destruct (calculate_total _); [|now left].
  right. eexists. split; reflexivity.
Qed.

(** Whatever the tool and its arguments, a handler either delivers
    nothing or delivers, once, the string it returns. *)
Lemma handler_callback_discipline (catalog : list MenuItem.t)
    (api_client : ApiClient) (call : ToolCall) (w : World) :
  callback_discipline w (handler catalog api_client call w).
Proof.
  destruct call; simpl.
  - apply add_item_callback_discipline.
  - apply remove_item_callback_discipline.
  - apply read_order_callback_discipline.
  - apply calculate_total_callback_discipline.
  - apply create_order_callback_discipline.
Qed.

(** C8 -- the code at the inputs where it departs from the statement.
    Each of these calls returns a text and delivers nothing through the
    callback: the add tool asked for a quantity of 0, the remove tool
    asked for an id the cart does not hold, the remove tool taking the
    last line out of the cart, and the read, total and create-order
    tools on an empty cart. *)
Theorem handlers_return_without_callback :
  let run := handler example_menu (mock_client example_menu "X") in
  run (add_item_to_order (mkParams (Some "burger-001") (Some 0))) new_session
  = (Returned "Error: quantity must be at least 1",
     mkWorld (mkSessionState []) [] [])
  /\ run (remove_item_from_order (mkParams (Some "burger-001") None))
       new_session
     = (Returned "Error: Item 'burger-001' not found in your order",
        mkWorld (mkSessionState []) [] [])
  /\ run (remove_item_from_order (mkParams (Some "side-001") None))
       (mkWorld (mkSessionState [one_fries]) [] [])
     = (Returned "Removed all Fries from your order. Your order is now empty.",
        mkWorld (mkSessionState []) [] [])
  /\ run read_current_order new_session
     = (Returned "Your order is currently empty.",
        mkWorld (mkSessionState []) [] [])
  /\ run calculate_order_total new_session
     = (Returned "Your order is empty. Please add some items first.",
        mkWorld (mkSessionState []) [] [])
  /\ run create_order new_session
     = (Returned
          "Error: Your order is empty. Please add some items before placing your order.",
        mkWorld (mkSessionState []) [] []).
Proof. repeat split; vm_compute; reflexivity. Qed.

(* ================================================================== *)
(** ** The worked example *)
(* ================================================================== *)

(** Two burgers, one more, one back, one fries, then the order: the
    totals announced are 11.98, 17.97, 11.98 and 14.47, the order is
    confirmed at 14.47 and the cart is empty; ordering again finds the
    cart empty and sends nothing. *)
Example worked_example :
  (AddItemToOrderFunction._handle_add_item example_menu
     (mkParams (Some "burger-001") (Some 2)) ;;
   AddItemToOrderFunction._handle_add_item example_menu
     (mkParams (Some "burger-001") (Some 1)) ;;
   RemoveItemFromOrderFunction._handle_remove_item
     (mkParams (Some "burger-001") (Some 1)) ;;
   AddItemToOrderFunction._handle_add_item example_menu
     (mkParams (Some "side-001") (Some 1)) ;;
   CreateOrderFunction._handle_create_order (mock_client example_menu "X") ;;
   CreateOrderFunction._handle_create_order (mock_client example_menu "X"))
    new_session
  = (Returned
       "Error: Your order is empty. Please add some items before placing your order.",
     mkWorld (mkSessionState [])
       [[ApiItem.mk "burger-001" 2; ApiItem.mk "side-001" 1]]
       ["Added 2 Classic Burger(s) to your order. Current order total: $11.98";
        "Added 1 Classic Burger(s) to your order. Current order total: $17.97";
        "Removed 1 Classic Burger(s) from your order. Current order total: $11.98";
        "Added 1 Fries(s) to your order. Current order total: $14.47";
        "Order confirmed! Your order ID is X. Total: $14.47. Thank you for your order!"]).
Proof. vm_compute. reflexivity. Qed.

(* ================================================================== *)
(** ** More on the cart *)
(* ================================================================== *)

Lemma set_quantity_same (x : OrderItem.t) :
  set_quantity x (OrderItem.quantity x) = x.
Proof. now destruct x. Qed.

Lemma other_lines_update_first (i : string) (f : Z -> Z)
    (items : list OrderItem.t) :
  filter (fun x => negb (has_id i x)) (update_first i f items)
  = filter (fun x => negb (has_id i x)) items.
Proof.
  induction items as [|x rest IH]; simpl; [reflexivity|].
  destruct (has_id i x) eqn:Ei; simpl.
  - now rewrite has_id_set_quantity, Ei.
  - now rewrite Ei, IH.
Qed.

Lemma other_lines_remove_first (i : string) (items : list OrderItem.t) :
  filter (fun x => negb (has_id i x)) (remove_first i items)
  = filter (fun x => negb (has_id i x)) items.
Proof.
  induction items as [|x rest IH]; simpl; [reflexivity|].
  destruct (has_id i x) eqn:Ei; simpl.
  - reflexivity.
  - now rewrite Ei, IH.
Qed.

(** X1 -- frame.  Adding or removing under one id leaves the rest of
    the cart as it was: the list of the lines that carry another id --
    the lines, their quantities, names and prices, and their order -- is
    the same before and after. *)
Theorem other_lines_untouched (self : SessionState) :
  (forall item,
     other_lines (OrderItem.item_id item) (add_item item self)
     = other_lines (OrderItem.item_id item) self)
  /\ (forall i qty,
        other_lines i (snd (remove_item i qty self)) = other_lines i self).
Proof.
  unfold other_lines. split.
  - intros item. unfold add_item.
    destruct (first_with_id _ _); cbn [order_items].
    + apply other_lines_update_first.
    + rewrite filter_app. simpl.
      assert (E : has_id (OrderItem.item_id item) item = true)
        by now apply has_id_true.
      rewrite E. apply app_nil_r.
  - intros i qty. unfold remove_item.
    destruct (first_with_id _ _) as [x|]; [|reflexivity].
    destruct qty as [q|]; [destruct (_ <=? q)|]; cbn [snd order_items];
      auto using other_lines_update_first, other_lines_remove_first.
Qed.

(** X2 -- what [add_item] does to the list.  When the cart holds the
    id, the ids stay where they are and the first line with the id keeps
    its own name and price -- those of the item passed in are dropped --
    with the two quantities added; when it does not, the item passed in
    becomes the last line. *)
Theorem add_item_keeps_order_and_snapshot (item : OrderItem.t)
    (self : SessionState) :
  match first_with_id (OrderItem.item_id item) (order_items self) with
  | Some x =>
      line_ids (order_items (add_item item self))
      = line_ids (order_items self)
      /\ first_with_id (OrderItem.item_id item)
           (order_items (add_item item self))
         = Some
             (OrderItem.mk (OrderItem.item_id x)
                (OrderItem.quantity x + OrderItem.quantity item)
                (OrderItem.name x) (OrderItem.price x))
  | None => order_items (add_item item self) = order_items self ++ [item]
  end.
Proof.
  destruct (first_with_id _ _) as [x|] eqn:Hfind.
  - destruct (first_with_id_split _ _ x Hfind)
      as (pre & post & Hs & Hx & Hpre).
    rewrite (add_item_present item x pre post self Hs Hx Hpre).
    cbn [order_items]. rewrite Hs. split.
    + apply line_ids_requantified.
    + now destruct (at_first_line (OrderItem.item_id item) pre post
                      (set_quantity x
                         (OrderItem.quantity x + OrderItem.quantity item))
                      Hx Hpre) as (H1 & _).
  - apply first_with_id_absent in Hfind.
    now rewrite (add_item_absent item self Hfind).
Qed.

(** X3 -- round trip.  In a cart whose quantities are all at least 1,
    adding an item and then removing the same quantity under its id
    gives back the cart that was there, line for line, whether the id
    was in the cart or not; the removal reports [True]. *)
Theorem add_then_remove_restores (item : OrderItem.t) (self : SessionState) :
  quantities_positive self ->
  remove_item (OrderItem.item_id item) (Some (OrderItem.quantity item))
    (add_item item self)
  = (true, self).
Proof.
  intros Hpos. unfold quantities_positive in Hpos.
  destruct (first_with_id (OrderItem.item_id item) (order_items self))
    as [x|] eqn:Hfind.
  - destruct (first_with_id_split _ _ x Hfind)
      as (pre & post & Hs & Hx & Hpre).
    rewrite (add_item_present item x pre post self Hs Hx Hpre).
    set (x1 := set_quantity x (OrderItem.quantity x + OrderItem.quantity item)).
    rewrite (remove_item_present (OrderItem.item_id item)
               (Some (OrderItem.quantity item)) x1 pre post
               (mkSessionState (pre ++ x1 :: post)) eq_refl Hx Hpre).
    rewrite Hs in Hpos. apply Forall_app in Hpos. destruct Hpos as [_ Hpos].
    inversion Hpos as [|? ? Hq _]; subst.
    change (OrderItem.quantity x1)
      with (OrderItem.quantity x + OrderItem.quantity item).
    destruct (Z.leb_spec (OrderItem.quantity x + OrderItem.quantity item)
                (OrderItem.quantity item)); [lia|].
    replace (OrderItem.quantity x + OrderItem.quantity item
             - OrderItem.quantity item) with (OrderItem.quantity x) by lia.
    change (set_quantity x1 (OrderItem.quantity x))
      with (set_quantity x (OrderItem.quantity x)).
    rewrite set_quantity_same, <- Hs. now destruct self.
  - apply first_with_id_absent in Hfind.
    rewrite (add_item_absent item self Hfind).
    rewrite (remove_item_present (OrderItem.item_id item)
               (Some (OrderItem.quantity item)) item (order_items self) []
               (mkSessionState (order_items self ++ [item])) eq_refl eq_refl
               Hfind).
    rewrite Z.leb_refl, app_nil_r. now destruct self.
Qed.

Lemma add_then_remove_restores_witness :
  remove_item "burger-001" (Some 3) (add_item three_burgers fries_and_burgers)
  = (true, fries_and_burgers).
Proof.
  apply (add_then_remove_restores three_burgers fries_and_burgers).
  unfold quantities_positive. simpl. repeat constructor; simpl; lia.
Defined.

(** X4 -- the flag of [remove_item].  It is [True] exactly when the
    cart holds the id; when it is [False] the cart is untouched; and a
    removal takes away one line or none, never more. *)
Theorem remove_item_flag_and_length (i : string) (qty : option Z)
    (self : SessionState) :
  (fst (remove_item i qty self) = true <-> In i (line_ids (order_items self)))
  /\ (fst (remove_item i qty self) = false ->
      snd (remove_item i qty self) = self)
  /\ (List.length (order_items (snd (remove_item i qty self)))
      = List.length (order_items self)
      \/ S (List.length (order_items (snd (remove_item i qty self))))
         = List.length (order_items self)).
Proof.
  destruct (first_with_id i (order_items self)) as [x|] eqn:Hfind.
  - destruct (first_with_id_split _ _ x Hfind)
      as (pre & post & Hs & Hx & Hpre).
    rewrite (remove_item_present i qty x pre post self Hs Hx Hpre).
    cbn [fst snd]. repeat split.
    + intros _. rewrite Hs, line_ids_app, in_app_iff. simpl. tauto.
    + discriminate.
    + rewrite Hs.
      destruct qty as [q|]; [destruct (_ <=? q)|]; cbn [order_items];
        rewrite !length_app; simpl; lia.
  - apply first_with_id_absent in Hfind.
    rewrite (remove_item_absent i qty self Hfind).
    cbn [fst snd]. repeat split; try tauto; try discriminate.
Qed.

(* ================================================================== *)
(** ** More on the backend client *)
(* ================================================================== *)

Lemma order_total_filter (MENU_ITEMS : list MenuItem.t)
    (items : list ApiItem.t) :
  BurgerAPIClient.order_total MENU_ITEMS items
  = BurgerAPIClient.order_total MENU_ITEMS (filter (on_menu MENU_ITEMS) items).
Proof.
  unfold BurgerAPIClient.order_total. generalize (Returned 0%float).
  induction items as [|order_item rest IH]; intros acc; [reflexivity|].
  cbn [fold_left filter].
  destruct (on_menu MENU_ITEMS order_item) eqn:E; unfold on_menu in E;
    destruct (BurgerAPIClient.menu_dict_get MENU_ITEMS
                (ApiItem.item_id order_item)) as [m|] eqn:Em;
    try discriminate E.
  - cbn [fold_left]. rewrite Em. apply IH.
  - destruct acc as [total|e]; cbn [and_then]; apply IH.
Qed.

(** X5 -- unknown items.  [create_order] answers as if the submitted
    items whose id is not on [MENU_ITEMS] had not been sent: they are
    neither charged nor refused.  An order none of whose items is on
    the menu -- the empty order too -- is confirmed with total 0.0. *)
Theorem create_order_ignores_unknown_items (MENU_ITEMS : list MenuItem.t)
    (uuid4 : string) (items : list ApiItem.t) :
  BurgerAPIClient.create_order MENU_ITEMS uuid4 items
  = BurgerAPIClient.create_order MENU_ITEMS uuid4
      (filter (on_menu MENU_ITEMS) items)
  /\ (filter (on_menu MENU_ITEMS) items = [] ->
      BurgerAPIClient.create_order MENU_ITEMS uuid4 items
      = Returned (mkCreateOrderResponse uuid4 0%float "confirmed")).
Proof.
  unfold BurgerAPIClient.create_order.
  rewrite (order_total_filter MENU_ITEMS items).
  split; [reflexivity|].
  intros E. rewrite E. reflexivity.
Qed.

Lemma create_order_ignores_unknown_items_witness :
  BurgerAPIClient.create_order example_menu "X"
    [ApiItem.mk "pizza-001" 2; ApiItem.mk "side-001" 1]
  = BurgerAPIClient.create_order example_menu "X" [ApiItem.mk "side-001" 1]
  /\ BurgerAPIClient.create_order example_menu "X" [ApiItem.mk "pizza-001" 2]
     = Returned (mkCreateOrderResponse "X" 0%float "confirmed").
Proof.
  split.
  - apply (create_order_ignores_unknown_items example_menu "X"
             [ApiItem.mk "pizza-001" 2; ApiItem.mk "side-001" 1]).
  - apply (create_order_ignores_unknown_items example_menu "X"
             [ApiItem.mk "pizza-001" 2]).
    reflexivity.
Defined.

Lemma find_over_app {A : Type} (f : A -> bool) (l1 l2 : list A) :
  find f (l1 ++ l2)
  = match find f l1 with Some x => Some x | None => find f l2 end.
Proof.
  induction l1 as [|a l1 IH]; simpl; [reflexivity|].
  now destruct (f a).
Qed.

Lemma find_rev_unique (MENU_ITEMS : list MenuItem.t) (i : string) :
  NoDup (map MenuItem.id MENU_ITEMS) ->
  find (fun item => String.eqb (MenuItem.id item) i) (rev MENU_ITEMS)
  = find (fun item => String.eqb (MenuItem.id item) i) MENU_ITEMS.
Proof.
  induction MENU_ITEMS as [|m rest IH]; intros Hnd; [reflexivity|].
  inversion Hnd as [|? ? Hm Hrest]; subst.
  cbn [rev find]. rewrite find_over_app, (IH Hrest).
  destruct (find _ rest) as [m'|] eqn:E.
  - apply find_some in E. destruct E as [Hin Heq].
    apply String.eqb_eq in Heq.
    destruct (String.eqb_spec (MenuItem.id m) i) as [Hmi|]; [|reflexivity].
    exfalso. apply Hm. rewrite Hmi, <- Heq. now apply in_map.
  - cbn [find]. now destruct (String.eqb (MenuItem.id m) i).
Qed.

(** X6 -- one id, one entry.  When the ids of [MENU_ITEMS] are pairwise
    distinct, the add tool (which takes the first entry with the id) and
    the backend (whose dictionary keeps the last) resolve every id to
    the same entry, hence to the same price. *)
Theorem catalog_and_backend_agree (MENU_ITEMS : list MenuItem.t)
    (i : string) :
  NoDup (map MenuItem.id MENU_ITEMS) ->
  BurgerAPIClient.menu_dict_get MENU_ITEMS i
  = catalog_find (BurgerAPIClient.get_catalog MENU_ITEMS) i.
Proof.
  intros Hnd. unfold BurgerAPIClient.menu_dict_get, catalog_find,
    BurgerAPIClient.get_catalog.
  now apply find_rev_unique.
Qed.

Lemma catalog_and_backend_agree_witness :
  BurgerAPIClient.menu_dict_get example_menu "side-001"
  = catalog_find (BurgerAPIClient.get_catalog example_menu) "side-001".
Proof.
  apply (catalog_and_backend_agree example_menu "side-001").
  simpl. repeat constructor; simpl; intuition discriminate.
Defined.

Lemma find_id_absent (MENU_ITEMS : list MenuItem.t) (i : string) :
  ~ In i (map MenuItem.id MENU_ITEMS) ->
  find (fun item => String.eqb (MenuItem.id item) i) MENU_ITEMS = None.
Proof.
  intros H.
  destruct (find _ MENU_ITEMS) as [m|] eqn:E; [|reflexivity].
  apply find_some in E. destruct E as [Hin Heq].
  apply String.eqb_eq in Heq.
  exfalso. apply H. rewrite <- Heq. now apply in_map.
Qed.

(** X7 -- a duplicated id.  When [MENU_ITEMS] lists an id more than
    once, the backend charges the last entry with that id and the add
    tool finds the first: wherever the two stand in the menu, and
    whatever stands between them. *)
Theorem backend_takes_last_catalog_first
    (before between after : list MenuItem.t) (earlier later : MenuItem.t) :
  MenuItem.id earlier = MenuItem.id later ->
  ~ In (MenuItem.id later) (map MenuItem.id before) ->
  ~ In (MenuItem.id later) (map MenuItem.id after) ->
  BurgerAPIClient.menu_dict_get
    (before ++ earlier :: between ++ later :: after) (MenuItem.id later)
  = Some later
  /\ catalog_find
       (BurgerAPIClient.get_catalog
          (before ++ earlier :: between ++ later :: after))
       (MenuItem.id later)
     = Some earlier.
Proof.
  intros Hid Hbefore Hafter.
  unfold BurgerAPIClient.menu_dict_get, catalog_find,
    BurgerAPIClient.get_catalog.
  split.
  - replace (before ++ earlier :: between ++ later :: after)
      with ((before ++ earlier :: between) ++ later :: after)
      by (rewrite <- app_assoc; reflexivity).
    rewrite rev_app_distr. cbn [rev]. rewrite <- app_assoc.
    rewrite find_over_app, find_id_absent.
    + cbn [app find]. now rewrite String.eqb_refl.
    + rewrite map_rev, <- in_rev. exact Hafter.
  - rewrite find_over_app, (find_id_absent before _ Hbefore).
    cbn [find]. rewrite Hid. now rewrite String.eqb_refl.
Qed.

Lemma backend_takes_last_catalog_first_witness :
  BurgerAPIClient.menu_dict_get menu_with_duplicate "burger-001"
  = Some
      (MenuItem.mk "burger-001" "Classic Burger" "Beef patty in a bun" 6.49
         "burger")
  /\ catalog_find (BurgerAPIClient.get_catalog menu_with_duplicate)
       "burger-001"
     = Some
         (MenuItem.mk "burger-001" "Classic Burger" "Beef patty in a bun"
            5.99 "burger").
Proof.
  apply (backend_takes_last_catalog_first
           [MenuItem.mk "side-001" "Fries" "Crispy fries" 2.49 "side"]
           [MenuItem.mk "drink-001" "Cola" "Cold cola" 1.99 "drink"]
           [MenuItem.mk "side-002" "Onion Rings" "Battered rings" 2.99 "side"]
           (MenuItem.mk "burger-001" "Classic Burger" "Beef patty in a bun"
              5.99 "burger")
           (MenuItem.mk "burger-001" "Classic Burger" "Beef patty in a bun"
              6.49 "burger")).
  - reflexivity.
  - simpl. intros [H|[]]. discriminate H.
  - simpl. intros [H|[]]. discriminate H.
Defined.

(* ================================================================== *)
(** ** The handlers, outcome by outcome *)
(* ================================================================== *)

Lemma handle_add_item_run (catalog : list MenuItem.t)
    (params : FunctionCallParams) (w : World) :
  AddItemToOrderFunction._handle_add_item catalog params w
  = let quantity :=
      match arguments_quantity params with Some q => q | None => 1 end in
    match arguments_item_id params with
    | None => (Returned "Error: item_id is required"%string, w)
    | Some i =>
        if String.eqb i "" then
          (Returned "Error: item_id is required"%string, w)
        else if quantity <? 1 then
          (Returned "Error: quantity must be at least 1"%string, w)
        else
          match catalog_find catalog i with
          | None => (Returned (AddItemToOrderFunction.not_found i catalog), w)
          | Some menu_item =>
              if PrimFloat.leb 0 (MenuItem.price menu_item) then
                let cart :=
                  add_item
                    (OrderItem.mk i quantity (MenuItem.name menu_item)
                       (MenuItem.price menu_item))
                    (session_state w) in
                match calculate_total cart with
                | Raised e => (Raised e, with_session_state cart w)
                | Returned total =>
                    match
                      AddItemToOrderFunction.added quantity menu_item total
                    with
                    | Raised e => (Raised e, with_session_state cart w)
                    | Returned response =>
                        (Returned response,
                         mkWorld cart (api_requests w)
                           (callback_results w ++ [response]))
                    end
                end
              else
                (Raised
                   (ValidationError
                      "price: Input should be greater than or equal to 0"),
                 w)
          end
    end.
Proof.
  unfold AddItemToOrderFunction._handle_add_item, catalog_find. cbv zeta.
  destruct (arguments_item_id params) as [i|]; [|reflexivity].
  destruct (String.eqb i ""); [reflexivity|].
  destruct (Z.ltb_spec
              match arguments_quantity params with Some q => q | None => 1 end
              1) as [Hq|Hq]; [reflexivity|].
  destruct (find _ catalog) as [menu_item|]; [|reflexivity].
  unfold_handler. unfold new_OrderItem.
  destruct (Z.leb_spec 1
              match arguments_quantity params with Some q => q | None => 1 end);
    [|lia].
  destruct (PrimFloat.leb 0 (MenuItem.price menu_item)); [|reflexivity].
  cbn [negb session_state].
  destruct (calculate_total _) as [total|e]; [|reflexivity].
  unfold AddItemToOrderFunction.logged, AddItemToOrderFunction.added.
  destruct (Py.str_int _); reflexivity.
Qed.

Lemma remove_item_found (i : string) (qty : option Z) (x : OrderItem.t)
    (self : SessionState) :
  first_with_id i (order_items self) = Some x ->
  fst (remove_item i qty self) = true.
Proof.
  intros H. unfold remove_item. rewrite H.
  destruct qty as [q|]; [destruct (_ <=? q)|]; reflexivity.
Qed.

Lemma handle_remove_item_run (params : FunctionCallParams) (w : World) :
  RemoveItemFromOrderFunction._handle_remove_item params w
  = let quantity := arguments_quantity params in
    match arguments_item_id params with
    | None => (Returned "Error: item_id is required"%string, w)
    | Some i =>
        if String.eqb i "" then
          (Returned "Error: item_id is required"%string, w)
        else
          match first_with_id i (order_items (session_state w)) with
          | None => (Returned (RemoveItemFromOrderFunction.not_in_order i), w)
          | Some item_to_remove =>
              if match quantity with Some q => q <? 1 | None => false end
              then
                (Returned
                   "Error: quantity to remove must be at least 1"%string,
                 w)
              else
                let cart := snd (remove_item i quantity (session_state w)) in
                match
                  RemoveItemFromOrderFunction.logged quantity
                    (OrderItem.quantity item_to_remove)
                    (OrderItem.name item_to_remove)
                with
                | Raised e => (Raised e, with_session_state cart w)
                | Returned _ =>
                    match order_items cart with
                    | [] =>
                        (Returned
                           (RemoveItemFromOrderFunction.removed_all_empty
                              (OrderItem.name item_to_remove)),
                         with_session_state cart w)
                    | _ :: _ =>
                        match calculate_total cart with
                        | Raised e => (Raised e, with_session_state cart w)
                        | Returned total =>
                            match
                              match quantity with
                              | None =>
                                  Returned
                                    (RemoveItemFromOrderFunction.removed_all
                                       (OrderItem.name item_to_remove) total)
                              | Some q =>
                                  if OrderItem.quantity item_to_remove <=? q
                                  then
                                    Returned
                                      (RemoveItemFromOrderFunction.removed_all
                                         (OrderItem.name item_to_remove) total)
                                  else
                                    RemoveItemFromOrderFunction.removed_some q
                                      (OrderItem.name item_to_remove) total
                              end
                            with
                            | Raised e => (Raised e, with_session_state cart w)
                            | Returned response =>
                                (Returned response,
                                 mkWorld cart (api_requests w)
                                   (callback_results w ++ [response]))
                            end
                        end
                    end
                end
          end
    end.
Proof.
  unfold RemoveItemFromOrderFunction._handle_remove_item. cbv zeta.
  destruct (arguments_item_id params) as [i|]; [|reflexivity].
  destruct (String.eqb i ""); [reflexivity|].
  unfold_handler.
  destruct (first_with_id i (order_items (session_state w))) as [x|] eqn:Hfind;
    [|reflexivity].
  destruct (match arguments_quantity params with
            | Some q => q <? 1
            | None => false
            end); [reflexivity|].
  pose proof (remove_item_found i (arguments_quantity params) x
                (session_state w) Hfind) as Hflag.
  destruct (remove_item i (arguments_quantity params) (session_state w))
    as [removed cart].
  cbn [fst] in Hflag. subst removed. cbn.
  destruct (RemoveItemFromOrderFunction.logged _ _ _); [|reflexivity].
  cbn.
  destruct (order_items cart); [reflexivity|].
  destruct (calculate_total cart); [|reflexivity].
  destruct (match arguments_quantity params with
            | Some q => _
            | None => _
            end); reflexivity.
Qed.

Lemma handle_create_order_run (api_client : ApiClient) (w : World) :
  CreateOrderFunction._handle_create_order api_client w
  = match order_items (session_state w) with
    | [] => (Returned CreateOrderFunction.empty_order, w)
    | _ :: _ =>
        let api_items :=
          CreateOrderFunction.api_items_of (order_items (session_state w)) in
        match api_client api_items with
        | Returned order_response =>
            (Returned (CreateOrderFunction.confirmed order_response),
             mkWorld (mkSessionState []) (api_requests w ++ [api_items])
               (callback_results w
                  ++ [CreateOrderFunction.confirmed order_response]))
        | Raised _ =>
            (Returned CreateOrderFunction.apology,
             mkWorld (session_state w) (api_requests w ++ [api_items])
               (callback_results w ++ [CreateOrderFunction.apology]))
        end
    end.
Proof.
  destruct (order_items (session_state w)) as [|x rest] eqn:E.
  - unfold CreateOrderFunction._handle_create_order. unfold_handler.
    now rewrite E.
  - rewrite handle_create_order_nonempty by (rewrite E; discriminate).
    cbv zeta. rewrite E. now destruct (api_client _).
Qed.

Lemma handle_read_order_run (w : World) :
  ReadCurrentOrderFunction._handle_read_order w
  = match order_items (session_state w) with
    | [] => (Returned "Your order is currently empty."%string, w)
    | _ :: _ =>
        match
          Py.map_result ReadCurrentOrderFunction.order_line
            (order_items (session_state w))
        with
        | Raised e => (Raised e, w)
        | Returned item_lines =>
            match calculate_total (session_state w) with
            | Raised e => (Raised e, w)
            | Returned total =>
                let response :=
                  Py.join Py.newline
                    (("Here's your current order:"%string :: item_lines)
                       ++ [(Py.newline ++ "Total: $"
                              ++ Py.format_2f total)%string]) in
                (Returned response, delivered response w)
            end
        end
    end.
Proof.
  unfold ReadCurrentOrderFunction._handle_read_order. unfold_handler.
  destruct (order_items (session_state w)) as [|x rest]; [reflexivity|].
  destruct (Py.map_result _ _); [|reflexivity].
  destruct (calculate_total _); reflexivity.
Qed.

Lemma handle_calculate_total_run (w : World) :
  CalculateOrderTotalFunction._handle_calculate_total w
  = match order_items (session_state w) with
    | [] =>
        (Returned "Your order is empty. Please add some items first."%string,
         w)
    | _ :: _ =>
        match
          Py.map_result CalculateOrderTotalFunction.breakdown_line
            (order_items (session_state w))
        with
        | Raised e => (Raised e, w)
        | Returned item_lines =>
            match calculate_total (session_state w) with
            | Raised e => (Raised e, w)
            | Returned total =>
                let response :=
                  Py.join Py.newline
                    (("Here's the breakdown of your order:"%string
                        :: item_lines)
                       ++ [(Py.newline ++ "Total: $"
                              ++ Py.format_2f total)%string]) in
                (Returned response, delivered response w)
            end
        end
    end.
Proof.
  unfold CalculateOrderTotalFunction._handle_calculate_total. unfold_handler.
  destruct (order_items (session_state w)) as [|x rest]; [reflexivity|].
  destruct (Py.map_result _ _); [|reflexivity].
  destruct (calculate_total _); reflexivity.
Qed.

(** A line of the read tool and of the total tool is printed exactly
    when the product of the line is a float: an integer that fits a
    float has fewer than 4300 digits. *)
Lemma order_line_cases (item : OrderItem.t) :
  match line_total item with
  | Returned item_total =>
      ReadCurrentOrderFunction.order_line item
      = Returned
          ("  " ++ Py.digits (OrderItem.quantity item) ++ "x "
             ++ OrderItem.name item ++ " - $"
             ++ Py.format_2f item_total)%string
      /\ CalculateOrderTotalFunction.breakdown_line item
         = Returned
             ("  " ++ Py.digits (OrderItem.quantity item) ++ "x "
                ++ OrderItem.name item ++ " @ $"
                ++ Py.format_2f (OrderItem.price item) ++ " each = $"
                ++ Py.format_2f item_total)%string
  | Raised e =>
      ReadCurrentOrderFunction.order_line item = Raised e
      /\ CalculateOrderTotalFunction.breakdown_line item = Raised e
  end.
Proof.
  unfold ReadCurrentOrderFunction.order_line,
    CalculateOrderTotalFunction.breakdown_line.
  destruct (line_total_cases item) as [[Hlt [product E]]|[_ E]]; rewrite E;
    cbn [and_then]; [|now split].
  rewrite str_int_returns; [now split|].
  pose proof int_float_limit_below_int_str_limit. lia.
Qed.

Lemma map_result_ext_returned {A B C : Type} (f : A -> result B)
    (g : A -> result C) (xs : list A) :
  (forall x,
     match f x with
     | Returned _ => exists z, g x = Returned z
     | Raised e => g x = Raised e
     end) ->
  match Py.map_result f xs with
  | Returned _ => exists zs, Py.map_result g xs = Returned zs
  | Raised e => Py.map_result g xs = Raised e
  end.
Proof.
  intros H. induction xs as [|x xs IH]; cbn [Py.map_result].
  - now eexists.
  - specialize (H x).
    destruct (f x) as [y|e]; cbn [and_then].
    + destruct H as [z Hz]. rewrite Hz. cbn [and_then].
      destruct (Py.map_result f xs) as [ys|e]; cbn [and_then].
      * destruct IH as [zs Hzs]. rewrite Hzs. cbn [and_then]. now eexists.
      * now rewrite IH.
    + now rewrite H.
Qed.

(** The lines of the read tool and of the total tool are printed
    exactly when [calculate_total()] returns; otherwise the loop raises
    what [calculate_total()] raises. *)
Lemma item_lines_cases (self : SessionState) :
  match calculate_total self with
  | Returned _ =>
      (exists item_lines,
         Py.map_result ReadCurrentOrderFunction.order_line (order_items self)
         = Returned item_lines)
      /\ (exists item_lines,
            Py.map_result CalculateOrderTotalFunction.breakdown_line
              (order_items self)
            = Returned item_lines)
  | Raised e =>
      Py.map_result ReadCurrentOrderFunction.order_line (order_items self)
      = Raised e
      /\ Py.map_result CalculateOrderTotalFunction.breakdown_line
           (order_items self)
         = Raised e
  end.
Proof.
  unfold calculate_total.
  pose proof (map_result_ext_returned line_total
                ReadCurrentOrderFunction.order_line (order_items self)) as Hr.
  pose proof (map_result_ext_returned line_total
                CalculateOrderTotalFunction.breakdown_line (order_items self))
    as Hc.
  destruct (Py.map_result line_total (order_items self)) as [products|e];
    cbn [and_then]; split; (apply Hr || apply Hc); intros x;
    pose proof (order_line_cases x) as Hx;
    destruct (line_total x); destruct Hx as [H1 H2];
    try (eexists; eassumption); assumption.
Qed.

Lemma append_assoc (a b c : string) :
  ((a ++ b) ++ c)%string = (a ++ (b ++ c))%string.
Proof. induction a as [|ch a IH]; simpl; [reflexivity | now rewrite IH]. Qed.

Lemma join_snoc (sep x last : string) (xs : list string) :
  Py.join sep ((x :: xs) ++ [last])
  = (Py.join sep (x :: xs) ++ sep ++ last)%string.
Proof.
  unfold Py.join. revert x.
  induction xs as [|y xs IH]; intros x; [reflexivity|].
  change (String.concat sep ((x :: y :: xs) ++ [last]))
    with (x ++ sep ++ String.concat sep ((y :: xs) ++ [last]))%string.
  rewrite IH.
  change (String.concat sep (x :: y :: xs))
    with (x ++ sep ++ String.concat sep (y :: xs))%string.
  now rewrite !append_assoc.
Qed.

(* ================================================================== *)
(** ** The total *)
(* ================================================================== *)




(* ================================================================== *)
(** ** What a tool call can and cannot do *)
(* ================================================================== *)

Lemma handler_cart_effect (catalog : list MenuItem.t) (api_client : ApiClient)
    (call : ToolCall) (w : World) :
  cart_effect catalog (session_state w)
    (session_state (snd (handler catalog api_client call w))).
Proof.
  destruct call as [params|params| | |]; cbn [handler].
  - rewrite handle_add_item_run. cbv zeta.
    destruct (arguments_item_id params) as [i|]; [|constructor].
    destruct (String.eqb_spec i ""); [constructor|].
    destruct (Z.ltb_spec
                match arguments_quantity params with
                | Some q => q
                | None => 1
                end 1); [constructor|].
    destruct (catalog_find catalog i) as [m|] eqn:Hfind; [|constructor].
    destruct (PrimFloat.leb 0 (MenuItem.price m)) eqn:Hprice; [|constructor].
    destruct (calculate_total _);
      [destruct (AddItemToOrderFunction.added _ _ _)|];
      cbn [snd session_state with_session_state]; now apply effect_add.
  - rewrite handle_remove_item_run. cbv zeta.
    destruct (arguments_item_id params) as [i|]; [|constructor].
    destruct (String.eqb i ""); [constructor|].
    destruct (first_with_id i (order_items (session_state w)));
      [|constructor].
    destruct (match arguments_quantity params with
              | Some q => q <? 1
              | None => false
              end); [constructor|].
    destruct (RemoveItemFromOrderFunction.logged _ _ _);
      [destruct (order_items (snd (remove_item i _ _)));
         [|destruct (calculate_total _);
            [destruct (match arguments_quantity params with
                       | Some q => _
                       | None => _
                       end)|]]|];
      cbn [snd session_state with_session_state]; apply effect_remove.
  - rewrite handle_read_order_run.
    destruct (order_items (session_state w)); [constructor|].
    destruct (Py.map_result _ _); [destruct (calculate_total _)|];
      constructor.
  - rewrite handle_calculate_total_run.
    destruct (order_items (session_state w)); [constructor|].
    destruct (Py.map_result _ _); [destruct (calculate_total _)|];
      constructor.
  - rewrite handle_create_order_run.
    destruct (order_items (session_state w)); [constructor|].
    cbv zeta. destruct (api_client _); cbn [snd session_state]; constructor.
Qed.

Lemma snapshot_of_set_quantity (catalog : list MenuItem.t) (x : OrderItem.t)
    (q : Z) :
  snapshot_of catalog x -> snapshot_of catalog (set_quantity x q).
Proof. exact (fun H => H). Qed.

Lemma cart_effect_keeps_lines_valid (catalog : list MenuItem.t)
    (s s' : SessionState) :
  cart_effect catalog s s' ->
  cart_invariant s /\ Forall (snapshot_of catalog) (order_items s) ->
  cart_invariant s' /\ Forall (snapshot_of catalog) (order_items s').
Proof.
  intros Heffect [Hinv Hsnap].
  destruct Heffect as [|i q m Hi Hq Hfind Hprice|i qty|].
  - now split.
  - split; [now apply add_item_invariant|].
    set (item := OrderItem.mk i q (MenuItem.name m) (MenuItem.price m)).
    assert (Hitem : snapshot_of catalog item).
    { repeat split; [exact Hi | exact Hprice |].
      exists m. now repeat split. }
    destruct (first_with_id (OrderItem.item_id item) (order_items s))
      as [x|] eqn:Hx.
    + destruct (first_with_id_split _ _ x Hx) as (pre & post & Hs & Hid & Hpre).
      rewrite (add_item_present item x pre post s Hs Hid Hpre).
      cbn [order_items]. rewrite Hs in Hsnap.
      apply Forall_app in Hsnap. destruct Hsnap as [Hp Hq'].
      inversion Hq'; subst.
      apply Forall_app. split; [assumption|].
      constructor; [now apply snapshot_of_set_quantity | assumption].
    + apply first_with_id_absent in Hx.
      rewrite (add_item_absent item s Hx). cbn [order_items].
      apply Forall_app. split; [assumption|]. now constructor.
  - split; [now apply remove_item_invariant|].
    destruct (first_with_id i (order_items s)) as [x|] eqn:Hx.
    + destruct (first_with_id_split _ _ x Hx) as (pre & post & Hs & Hid & Hpre).
      rewrite (remove_item_present i qty x pre post s Hs Hid Hpre).
      cbn [snd]. rewrite Hs in Hsnap.
      apply Forall_app in Hsnap. destruct Hsnap as [Hp Hq'].
      inversion Hq'; subst.
      destruct qty as [q|]; [destruct (_ <=? q)|]; cbn [order_items];
        apply Forall_app; split; try assumption.
      constructor; [now apply snapshot_of_set_quantity | assumption].
    + apply first_with_id_absent in Hx.
      now rewrite (remove_item_absent i qty s Hx).
  - split; [split; constructor | constructor].
Qed.

Lemma run_session_keeps_lines_valid (catalog : list MenuItem.t)
    (steps : list Step) (w : World) :
  cart_invariant (session_state w)
  /\ Forall (snapshot_of catalog) (order_items (session_state w)) ->
  cart_invariant (session_state (run_session catalog steps w))
  /\ Forall (snapshot_of catalog)
       (order_items (session_state (run_session catalog steps w))).
Proof.
  unfold run_session. revert w.
  induction steps as [|[api_client call] steps IH]; intros w Hw;
    [exact Hw|].
  cbn [fold_left]. apply IH. unfold after_call. cbn [fst snd].
  eapply cart_effect_keeps_lines_valid; [apply handler_cart_effect | exact Hw].
Qed.

(** X8 -- the cart of a session.  Whatever tool calls are made, with
    whatever arguments and whatever the endpoint answers, the cart of a
    session that started empty has quantities of at least 1, no two
    lines with one id, and every line is a snapshot of the catalog entry
    the add tool finds under its id: same name, same price, a price
    that is at least 0, an id that is not empty. *)
Theorem session_cart_always_valid (catalog : list MenuItem.t)
    (steps : list Step) :
  cart_invariant (session_state (run_session catalog steps new_session))
  /\ Forall (snapshot_of catalog)
       (order_items (session_state (run_session catalog steps new_session))).
Proof.
  apply run_session_keeps_lines_valid.
  split; [split; constructor | constructor].
Qed.

(** X9 -- the total at submission.  When the ids of [MENU_ITEMS] are
    pairwise distinct and the add tool works from [get_catalog()], then
    at any moment of a session that started empty the backend's answer
    for the cart is made of the cart's own lines: it forms the product
    price x quantity of each line as the line carries them, adds the
    products to 0.0 one after the other in cart order, and confirms
    with that sum rounded to two decimals; it raises when a product
    raises, and answers when every quantity is within the range of
    floats. *)
Theorem session_total_is_backend_total (MENU_ITEMS : list MenuItem.t)
    (steps : list Step) (uuid4 : string) :
  NoDup (map MenuItem.id MENU_ITEMS) ->
  let w :=
    run_session (BurgerAPIClient.get_catalog MENU_ITEMS) steps new_session in
  BurgerAPIClient.create_order MENU_ITEMS uuid4
    (map
       (fun item =>
          ApiItem.mk (OrderItem.item_id item) (OrderItem.quantity item))
       (order_items (session_state w)))
  = match Py.map_result line_total (order_items (session_state w)) with
    | Returned products =>
        Returned
          (mkCreateOrderResponse uuid4
             (Py.round_2 (fold_left PrimFloat.add products 0%float))
             "confirmed")
    | Raised e => Raised e
    end
  /\ (quantities_in_float_range (session_state w) ->
      exists products,
        Py.map_result line_total (order_items (session_state w))
        = Returned products).
Proof.
  intros Hnd w.
  destruct (run_session_keeps_lines_valid
              (BurgerAPIClient.get_catalog MENU_ITEMS) steps new_session)
    as [_ Hsnap]; [split; [split; constructor | constructor]|].
  fold w in Hsnap.
  split.
  - unfold BurgerAPIClient.create_order.
    change (map _ (order_items (session_state w)))
      with (CreateOrderFunction.api_items_of (order_items (session_state w))).
    rewrite order_total_running_sum.
    + now destruct (Py.map_result line_total _).
    + unfold lines_on_menu.
      eapply Forall_impl; [|exact Hsnap].
      intros item (_ & _ & m & Hfind & _ & Hprice).
      unfold BurgerAPIClient.menu_dict_get.
      rewrite (find_rev_unique MENU_ITEMS _ Hnd).
      unfold catalog_find, BurgerAPIClient.get_catalog in Hfind.
      rewrite Hfind. cbn. now rewrite Hprice.
  - intros Hrange. apply map_result_returns.
    eapply Forall_impl; [|exact Hrange].
    intros item Hitem. eexists. now apply line_total_returns.
Qed.

Lemma session_total_is_backend_total_witness :
  BurgerAPIClient.create_order example_menu "X"
    [ApiItem.mk "burger-001" 2; ApiItem.mk "side-001" 1]
  = Returned (mkCreateOrderResponse "X" 14.47 "confirmed")
  /\ BurgerAPIClient.create_order example_menu "X"
       [ApiItem.mk "burger-001" (2 ^ 1024)]
     = Raised (OverflowError "int too large to convert to float").
Proof.
  split.
  - destruct (session_total_is_backend_total example_menu example_steps "X")
      as [Htotal _].
    + simpl. repeat constructor; simpl; intuition discriminate.
    + etransitivity; [exact Htotal|]. vm_compute. reflexivity.
  - destruct (session_total_is_backend_total example_menu
                [ (mock_client example_menu "X",
                   add_item_to_order
                     (mkParams (Some "burger-001") (Some (2 ^ 1024)))) ]
                "X")
      as [Htotal _].
    + simpl. repeat constructor; simpl; intuition discriminate.
    + etransitivity; [exact Htotal|]. vm_compute. reflexivity.
Defined.

(** X10 -- requests to the endpoint.  Only [create_order] on a cart that
    is not empty sends a request, and it sends exactly one, carrying the
    id and the quantity of each line of the cart, in order, whether the
    endpoint answers or raises; the other four tools, and [create_order]
    on an empty cart, send none. *)
Theorem only_create_order_submits (catalog : list MenuItem.t)
    (api_client : ApiClient) (call : ToolCall) (w : World) :
  api_requests (snd (handler catalog api_client call w))
  = match call, order_items (session_state w) with
    | create_order, _ :: _ =>
        api_requests w
          ++ [map
                (fun item =>
                   ApiItem.mk (OrderItem.item_id item)
                     (OrderItem.quantity item))
                (order_items (session_state w))]
    | _, _ => api_requests w
    end.
Proof.
  destruct call as [params|params| | |]; cbn [handler].
  - rewrite handle_add_item_run. cbv zeta.
    destruct (arguments_item_id params) as [i|];
      [destruct (String.eqb i ""); [|destruct (_ <? 1);
         [|destruct (catalog_find catalog i) as [m|];
            [destruct (PrimFloat.leb 0 (MenuItem.price m));
               [destruct (calculate_total _);
                  [destruct (AddItemToOrderFunction.added _ _ _)|]|]|]]]|];
      now destruct (order_items (session_state w)).
  - rewrite handle_remove_item_run. cbv zeta.
    destruct (arguments_item_id params) as [i|];
      [destruct (String.eqb i "");
         [|destruct (first_with_id i (order_items (session_state w))) eqn:E;
            [destruct (match arguments_quantity params with
                       | Some q => q <? 1
                       | None => false
                       end);
               [|destruct (RemoveItemFromOrderFunction.logged _ _ _);
                   [destruct (order_items (snd (remove_item i _ _)));
                      [|destruct (calculate_total _);
                         [destruct (match arguments_quantity params with
                                    | Some q => _
                                    | None => _
                                    end)|]]|]]|]]|];
      cbn [snd api_requests with_session_state];
      now destruct (order_items (session_state w)).
  - rewrite handle_read_order_run.
    destruct (order_items (session_state w)); [reflexivity|].
    destruct (Py.map_result _ _); [destruct (calculate_total _)|];
      reflexivity.
  - rewrite handle_calculate_total_run.
    destruct (order_items (session_state w)); [reflexivity|].
    destruct (Py.map_result _ _); [destruct (calculate_total _)|];
      reflexivity.
  - rewrite handle_create_order_run.
    destruct (order_items (session_state w)); [reflexivity|].
    cbv zeta. now destruct (api_client _).
Qed.

Lemma modest_in_float_range (n : Z) :
  modest n -> Z.abs n < Py.int_float_limit.
Proof.
  unfold modest. pose proof modest_limit_below_int_float_limit.
  assert (0 < modest_limit) by reflexivity. lia.
Qed.

Lemma modest_sum_in_float_range (n m : Z) :
  modest n -> modest m ->
  Z.abs (n + m) < Py.int_float_limit /\ Z.abs (n - m) < Py.int_float_limit.
Proof.
  unfold modest. pose proof modest_limit_below_int_float_limit. lia.
Qed.

Lemma modest_str_int (n : Z) :
  modest n -> Py.str_int n = Returned (Py.digits n).
Proof.
  intros H. apply str_int_returns.
  pose proof (modest_in_float_range n H).
  pose proof int_float_limit_below_int_str_limit. lia.
Qed.

Lemma add_item_in_float_range (item : OrderItem.t) (self : SessionState) :
  modest_cart self ->
  modest (OrderItem.quantity item) ->
  quantities_in_float_range (add_item item self).
Proof.
  unfold modest_cart, quantities_in_float_range. intros Hcart Hitem.
  destruct (first_with_id (OrderItem.item_id item) (order_items self))
    as [x|] eqn:Hx.
  - destruct (first_with_id_split _ _ x Hx) as (pre & post & Hs & Hid & Hpre).
    rewrite (add_item_present item x pre post self Hs Hid Hpre).
    cbn [order_items]. rewrite Hs in Hcart.
    apply Forall_app in Hcart. destruct Hcart as [Hp Hq].
    inversion Hq as [|? ? Hx' Hpost]; subst.
    apply Forall_app. split.
    + eapply Forall_impl; [|exact Hp]. intros a. apply modest_in_float_range.
    + constructor.
      * cbn. now apply modest_sum_in_float_range.
      * eapply Forall_impl; [|exact Hpost]. intros a. apply modest_in_float_range.
  - apply first_with_id_absent in Hx.
    rewrite (add_item_absent item self Hx). cbn [order_items].
    apply Forall_app. split.
    + eapply Forall_impl; [|exact Hcart]. intros a. apply modest_in_float_range.
    + constructor; [now apply modest_in_float_range | constructor].
Qed.

Lemma remove_item_in_float_range (i : string) (qty : option Z)
    (self : SessionState) :
  modest_cart self ->
  match qty with Some q => modest q | None => True end ->
  quantities_in_float_range (snd (remove_item i qty self)).
Proof.
  unfold modest_cart, quantities_in_float_range. intros Hcart Hqty.
  destruct (first_with_id i (order_items self)) as [x|] eqn:Hx.
  - destruct (first_with_id_split _ _ x Hx) as (pre & post & Hs & Hid & Hpre).
    rewrite (remove_item_present i qty x pre post self Hs Hid Hpre).
    cbn [snd]. rewrite Hs in Hcart.
    apply Forall_app in Hcart. destruct Hcart as [Hp Hq].
    inversion Hq as [|? ? Hx' Hpost]; subst.
    assert (Hpre' :
      Forall
        (fun item => Z.abs (OrderItem.quantity item) < Py.int_float_limit)
        pre)
      by (eapply Forall_impl; [|exact Hp]; intros a; apply modest_in_float_range).
    assert (Hpost' :
      Forall
        (fun item => Z.abs (OrderItem.quantity item) < Py.int_float_limit)
        post)
      by (eapply Forall_impl; [|exact Hpost]; intros a; apply modest_in_float_range).
    destruct qty as [q|]; [destruct (_ <=? q)|]; cbn [order_items];
      apply Forall_app; split; try assumption.
    constructor; [|assumption].
    cbn. now apply modest_sum_in_float_range.
  - apply first_with_id_absent in Hx.
    rewrite (remove_item_absent i qty self Hx). cbn [snd].
    eapply Forall_impl; [|exact Hcart]. intros a. apply modest_in_float_range.
Qed.

Lemma calculate_total_out_of_range (self : SessionState) (e : exn) :
  calculate_total self = Raised e ->
  e = OverflowError "int too large to convert to float"
  /\ ~ quantities_in_float_range self.
Proof.
  intros H. split; [now apply (calculate_total_raised self e)|].
  intros Hrange. destruct (calculate_total_returns self Hrange) as [t Ht].
  rewrite Ht in H. discriminate H.
Qed.

Lemma str_int_raised (n : Z) (e : exn) :
  Py.str_int n = Raised e ->
  e = ValueError
        "Exceeds the limit (4300 digits) for integer string conversion; use sys.set_int_max_str_digits() to increase the limit"
  /\ Py.int_str_limit <= Z.abs n.
Proof.
  unfold Py.str_int.
  destruct (Z.ltb_spec (Z.abs n) Py.int_str_limit) as [|Hlimit];
    [discriminate|].
  intros H. split; [|assumption].
  exact (f_equal
           (fun r : result string =>
              match r with Raised e' => e' | Returned _ => e end) (eq_sym H)).
Qed.

(** X11 -- exceptions.  A call that raises has sent nothing to the
    endpoint and delivered nothing.  Three exceptions can leave a
    handler.  The validation error of [OrderItem], raised by the add
    tool for a catalog entry whose price is not at least 0, before it
    touches anything: the world is as it was.  [OverflowError], when the
    total is asked of a cart with a quantity too large for a float: the
    cart the call leaves behind holds such a quantity.  [ValueError],
    when the add or the remove tool prints a quantity of 4300 digits or
    more.  With a catalog whose prices are all at least 0 and
    quantities, in the cart and in the call, below 2^1022 in magnitude,
    every call of every tool returns a string. *)
Theorem exceptions_that_escape (catalog : list MenuItem.t)
    (api_client : ApiClient) (call : ToolCall) (w : World) :
  (forall e,
     fst (handler catalog api_client call w) = Raised e ->
     api_requests (snd (handler catalog api_client call w)) = api_requests w
     /\ callback_results (snd (handler catalog api_client call w))
        = callback_results w
     /\ match e with
        | ValidationError _ =>
            snd (handler catalog api_client call w) = w
            /\ exists params i menu_item,
                 call = add_item_to_order params
                 /\ arguments_item_id params = Some i
                 /\ catalog_find catalog i = Some menu_item
                 /\ PrimFloat.leb 0 (MenuItem.price menu_item) = false
        | OverflowError _ =>
            ~ quantities_in_float_range
                (session_state (snd (handler catalog api_client call w)))
        | ValueError _ =>
            exists params q,
              (call = add_item_to_order params
               \/ call = remove_item_from_order params)
              /\ arguments_quantity params = Some q
              /\ Py.int_str_limit <= q
        | Exception _ => False
        end)
  /\ (Forall (fun item => PrimFloat.leb 0 (MenuItem.price item) = true)
        catalog ->
      modest_cart (session_state w) ->
      modest_call call ->
      exists text, fst (handler catalog api_client call w) = Returned text).
Proof.
  split.
  - intros e.
    destruct call as [params|params| | |]; cbn [handler].
    + rewrite handle_add_item_run. cbv zeta.
      destruct (arguments_item_id params) as [i|] eqn:Ei; [|discriminate].
      destruct (String.eqb i ""); [discriminate|].
      destruct (Z.ltb_spec
                  match arguments_quantity params with
                  | Some q => q
                  | None => 1
                  end 1) as [|Hq]; [discriminate|].
      destruct (catalog_find catalog i) as [m|] eqn:Hfind; [|discriminate].
      destruct (PrimFloat.leb 0 (MenuItem.price m)) eqn:Hprice.
      * destruct (calculate_total _) as [total|e'] eqn:Htotal.
        -- unfold AddItemToOrderFunction.added.
           destruct (Py.str_int _) as [printed|e'] eqn:Hprint;
             cbn [and_then fst snd]; [discriminate|].
           intros H. apply eq_sym in H.
           assert (He : e = e')
             by exact (f_equal
                         (fun r : result string =>
                            match r with
                            | Raised x => x
                            | Returned _ => e
                            end) H).
           subst e'.
           destruct (str_int_raised _ _ Hprint) as [-> Hlimit].
           repeat split.
           destruct (arguments_quantity params) as [q|] eqn:Eq.
           ++ exists params, q. repeat split; [now left | exact Eq | lia].
           ++ exfalso. revert Hlimit. apply Z.lt_nge. reflexivity.
        -- cbn [fst snd]. intros H.
           assert (He : e' = e)
             by exact (f_equal
                         (fun r : result string =>
                            match r with
                            | Raised x => x
                            | Returned _ => e
                            end) H).
           subst e'.
           destruct (calculate_total_out_of_range _ _ Htotal) as [-> Hout].
           repeat split. exact Hout.
      * cbn [fst snd]. intros H.
        assert (He : ValidationError
                       "price: Input should be greater than or equal to 0"
                     = e)
          by exact (f_equal
                      (fun r : result string =>
                         match r with
                         | Raised x => x
                         | Returned _ => e
                         end) H).
        subst e. repeat split. now exists params, i, m.
    + rewrite handle_remove_item_run. cbv zeta.
      destruct (arguments_item_id params) as [i|]; [|discriminate].
      destruct (String.eqb i ""); [discriminate|].
      destruct (first_with_id i (order_items (session_state w))) as [x|];
        [|discriminate].
      destruct (arguments_quantity params) as [q|] eqn:Eq.
      * destruct (Z.ltb_spec q 1) as [|Hq]; [discriminate|].
        assert (Hprint : forall e',
                  Py.str_int q = Raised e' ->
                  match e' with
                  | ValueError _ =>
                      exists params' q',
                        (remove_item_from_order params
                         = add_item_to_order params'
                         \/ remove_item_from_order params
                            = remove_item_from_order params')
                        /\ arguments_quantity params' = Some q'
                        /\ Py.int_str_limit <= q'
                  | _ => False
                  end).
        { intros e' He'. destruct (str_int_raised _ _ He') as [-> Hlimit].
          exists params, q. repeat split; [now right | assumption | lia]. }
        unfold RemoveItemFromOrderFunction.logged,
          RemoveItemFromOrderFunction.removed_some.
        destruct (negb (q =? 0) && (q <? OrderItem.quantity x)).
        -- destruct (Py.str_int q) as [printed|e'] eqn:Hq'; cbn [and_then].
           ++ destruct (order_items (snd (remove_item i _ _)));
                [discriminate|].
              destruct (calculate_total _) as [total|e''] eqn:Htotal.
              ** destruct (_ <=? q); cbn [fst snd]; discriminate.
              ** cbn [fst snd]. intros H.
                 assert (He : e'' = e)
                   by exact (f_equal
                               (fun r : result string =>
                                  match r with
                                  | Raised x => x
                                  | Returned _ => e
                                  end) H).
                 subst e''.
                 destruct (calculate_total_out_of_range _ _ Htotal)
                   as [-> Hout].
                 repeat split. exact Hout.
           ++ cbn [fst snd]. intros H.
              assert (He : e' = e)
                by exact (f_equal
                            (fun r : result string =>
                               match r with
                               | Raised x => x
                               | Returned _ => e
                               end) H).
              subst e'. specialize (Hprint e eq_refl).
              destruct e; try contradiction. repeat split. exact Hprint.
        -- destruct (order_items (snd (remove_item i _ _)));
             [discriminate|].
           destruct (calculate_total _) as [total|e''] eqn:Htotal.
           ++ destruct (_ <=? q); cbn [and_then fst snd]; [discriminate|].
              destruct (Py.str_int q) as [printed|e'] eqn:Hq';
                cbn [and_then fst snd]; [discriminate|].
              intros H.
              assert (He : e' = e)
                by exact (f_equal
                            (fun r : result string =>
                               match r with
                               | Raised x => x
                               | Returned _ => e
                               end) H).
              subst e'. specialize (Hprint e eq_refl).
              destruct e; try contradiction. repeat split. exact Hprint.
           ++ cbn [fst snd]. intros H.
              assert (He : e'' = e)
                by exact (f_equal
                            (fun r : result string =>
                               match r with
                               | Raised x => x
                               | Returned _ => e
                               end) H).
              subst e''.
              destruct (calculate_total_out_of_range _ _ Htotal)
                as [-> Hout].
              repeat split. exact Hout.
      * cbn [RemoveItemFromOrderFunction.logged].
        destruct (order_items (snd (remove_item i _ _))); [discriminate|].
        destruct (calculate_total _) as [total|e''] eqn:Htotal;
          [discriminate|].
        cbn [fst snd]. intros H.
        assert (He : e'' = e)
          by exact (f_equal
                      (fun r : result string =>
                         match r with
                         | Raised x => x
                         | Returned _ => e
                         end) H).
        subst e''.
        destruct (calculate_total_out_of_range _ _ Htotal) as [-> Hout].
        repeat split. exact Hout.
    + rewrite handle_read_order_run.
      destruct (order_items (session_state w)) eqn:Hitems; [discriminate|].
      rewrite <- Hitems.
      pose proof (item_lines_cases (session_state w)) as Hlines.
      destruct (calculate_total (session_state w)) as [total|e'] eqn:Htotal.
      * destruct Hlines as [[item_lines ->] _]. discriminate.
      * destruct Hlines as [-> _]. cbn [fst snd]. intros H.
        assert (He : e' = e)
          by exact (f_equal
                      (fun r : result string =>
                         match r with
                         | Raised x => x
                         | Returned _ => e
                         end) H).
        subst e'.
        destruct (calculate_total_out_of_range _ _ Htotal) as [-> Hout].
        repeat split. exact Hout.
    + rewrite handle_calculate_total_run.
      destruct (order_items (session_state w)) eqn:Hitems; [discriminate|].
      rewrite <- Hitems.
      pose proof (item_lines_cases (session_state w)) as Hlines.
      destruct (calculate_total (session_state w)) as [total|e'] eqn:Htotal.
      * destruct Hlines as [_ [item_lines ->]]. discriminate.
      * destruct Hlines as [_ ->]. cbn [fst snd]. intros H.
        assert (He : e' = e)
          by exact (f_equal
                      (fun r : result string =>
                         match r with
                         | Raised x => x
                         | Returned _ => e
                         end) H).
        subst e'.
        destruct (calculate_total_out_of_range _ _ Htotal) as [-> Hout].
        repeat split. exact Hout.
    + rewrite handle_create_order_run.
      destruct (order_items (session_state w)); [discriminate|].
      cbv zeta. destruct (api_client _); discriminate.
  - intros Hprices Hcart Hcall.
    destruct call as [params|params| | |]; cbn [handler].
    + rewrite handle_add_item_run. cbv zeta.
      destruct (arguments_item_id params) as [i|]; [|now eexists].
      destruct (String.eqb i ""); [now eexists|].
      destruct (_ <? 1); [now eexists|].
      destruct (catalog_find catalog i) as [m|] eqn:Hfind; [|now eexists].
      assert (Hprice : PrimFloat.leb 0 (MenuItem.price m) = true).
      { apply find_some in Hfind. destruct Hfind as [Hin _].
        rewrite Forall_forall in Hprices. now apply Hprices. }
      rewrite Hprice.
      assert (Hq : modest
                     match arguments_quantity params with
                     | Some q => q
                     | None => 1
                     end).
      { cbn [modest_call] in Hcall.
        destruct (arguments_quantity params); [exact Hcall | reflexivity]. }
      destruct (calculate_total_returns
                  (add_item
                     (OrderItem.mk i
                        match arguments_quantity params with
                        | Some q => q
                        | None => 1
                        end (MenuItem.name m) (MenuItem.price m))
                     (session_state w))) as [total Htotal].
      { now apply add_item_in_float_range. }
      rewrite Htotal. unfold AddItemToOrderFunction.added.
      rewrite (modest_str_int _ Hq). cbn [and_then fst]. now eexists.
    + rewrite handle_remove_item_run. cbv zeta.
      destruct (arguments_item_id params) as [i|]; [|now eexists].
      destruct (String.eqb i ""); [now eexists|].
      destruct (first_with_id i (order_items (session_state w))) as [x|];
        [|now eexists].
      cbn [modest_call] in Hcall.
      pose proof (remove_item_in_float_range i (arguments_quantity params)
                    (session_state w) Hcart Hcall) as Hrange.
      destruct (calculate_total_returns _ Hrange) as [total Htotal].
      rewrite Htotal.
      destruct (arguments_quantity params) as [q|].
      * destruct (q <? 1); [now eexists|].
        unfold RemoveItemFromOrderFunction.logged,
          RemoveItemFromOrderFunction.removed_some.
        rewrite (modest_str_int _ Hcall). cbn [and_then].
        destruct (negb (q =? 0) && (q <? OrderItem.quantity x));
          destruct (order_items (snd (remove_item i _ _)));
          try (now eexists);
          destruct (_ <=? q); now eexists.
      * cbn [RemoveItemFromOrderFunction.logged].
        destruct (order_items (snd (remove_item i _ _))); now eexists.
    + rewrite handle_read_order_run.
      destruct (order_items (session_state w)) eqn:Hitems; [now eexists|].
      rewrite <- Hitems.
      pose proof (item_lines_cases (session_state w)) as Hlines.
      destruct (calculate_total_returns (session_state w)) as [total Htotal].
      { eapply Forall_impl; [|exact Hcart]. intros a. apply modest_in_float_range. }
      rewrite Htotal in *. destruct Hlines as [[item_lines ->] _].
      now eexists.
    + rewrite handle_calculate_total_run.
      destruct (order_items (session_state w)) eqn:Hitems; [now eexists|].
      rewrite <- Hitems.
      pose proof (item_lines_cases (session_state w)) as Hlines.
      destruct (calculate_total_returns (session_state w)) as [total Htotal].
      { eapply Forall_impl; [|exact Hcart]. intros a. apply modest_in_float_range. }
      rewrite Htotal in *. destruct Hlines as [_ [item_lines ->]].
      now eexists.
    + rewrite handle_create_order_run.
      destruct (order_items (session_state w)); [now eexists|].
      cbv zeta. destruct (api_client _); now eexists.
Qed.

Lemma exceptions_that_escape_witness :
  snd (handler menu_with_refund (mock_client menu_with_refund "X")
         (add_item_to_order (mkParams (Some "refund-001") (Some 1)))
         new_session)
  = new_session
  /\ ~ quantities_in_float_range
         (session_state
            (snd (handler example_menu (mock_client example_menu "X")
                    (add_item_to_order
                       (mkParams (Some "burger-001") (Some (2 ^ 1024))))
                    new_session)))
  /\ (fst (handler example_menu (mock_client example_menu "X")
              (remove_item_from_order
                 (mkParams (Some "burger-001") (Some (10 ^ 4300))))
              hoard)
       = Raised
           (ValueError
              "Exceeds the limit (4300 digits) for integer string conversion; use sys.set_int_max_str_digits() to increase the limit")
       /\ quantity_of "burger-001"
            (session_state
               (snd (handler example_menu (mock_client example_menu "X")
                       (remove_item_from_order
                          (mkParams (Some "burger-001") (Some (10 ^ 4300))))
                       hoard)))
          = 10 ^ 4301 - 10 ^ 4300
       /\ callback_results
            (snd (handler example_menu (mock_client example_menu "X")
                    (remove_item_from_order
                       (mkParams (Some "burger-001") (Some (10 ^ 4300))))
                    hoard))
          = callback_results hoard)
  /\ exists text,
       fst (handler example_menu (mock_client example_menu "X")
              (remove_item_from_order (mkParams (Some "side-001") (Some 1)))
              three_fries)
       = Returned text.
Proof.
  split; [|split; [|split]].
  - destruct (exceptions_that_escape menu_with_refund
                (mock_client menu_with_refund "X")
                (add_item_to_order (mkParams (Some "refund-001") (Some 1)))
                new_session) as [Hraise _].
    apply (Hraise
             (ValidationError
                "price: Input should be greater than or equal to 0")).
    reflexivity.
  - destruct (exceptions_that_escape example_menu
                (mock_client example_menu "X")
                (add_item_to_order
                   (mkParams (Some "burger-001") (Some (2 ^ 1024))))
                new_session) as [Hraise _].
    apply (Hraise (OverflowError "int too large to convert to float")).
    vm_compute. reflexivity.
  - destruct (exceptions_that_escape example_menu
                (mock_client example_menu "X")
                (remove_item_from_order
                   (mkParams (Some "burger-001") (Some (10 ^ 4300))))
                hoard) as [Hraise _].
    assert (Hrun :
      fst (handler example_menu (mock_client example_menu "X")
             (remove_item_from_order
                (mkParams (Some "burger-001") (Some (10 ^ 4300))))
             hoard)
      = Raised
          (ValueError
             "Exceeds the limit (4300 digits) for integer string conversion; use sys.set_int_max_str_digits() to increase the limit"))
      by (vm_compute; reflexivity).
    split; [exact Hrun|].
    split; [vm_compute; reflexivity|].
    now destruct (Hraise _ Hrun) as (_ & Hcallback & _).
  - destruct (exceptions_that_escape example_menu
                (mock_client example_menu "X")
                (remove_item_from_order (mkParams (Some "side-001") (Some 1)))
                three_fries) as [_ Hok].
    apply Hok.
    + repeat constructor.
    + change (modest_cart
                (mkSessionState [OrderItem.mk "side-001" 3 "Fries" 2.49])).
      unfold modest_cart. cbn [order_items].
      constructor; [reflexivity | constructor].
    + reflexivity.
Defined.

(** X12 -- an error text means nothing happened.  When the text a tool
    returns starts with "Error:", the call has changed nothing: the
    cart, the requests sent and the texts delivered are what they were
    before the call. *)
Theorem error_text_means_no_change (catalog : list MenuItem.t)
    (api_client : ApiClient) (call : ToolCall) (w : World) :
  is_error (fst (handler catalog api_client call w)) ->
  snd (handler catalog api_client call w) = w.
Proof.
  destruct call as [params|params| | |]; cbn [handler].
  - rewrite handle_add_item_run. cbv zeta.
    destruct (arguments_item_id params) as [i|]; [|reflexivity].
    destruct (String.eqb i ""); [reflexivity|].
    destruct (_ <? 1); [reflexivity|].
    destruct (catalog_find catalog i) as [m|]; [|reflexivity].
    destruct (PrimFloat.leb 0 (MenuItem.price m)); [|reflexivity].
    destruct (calculate_total _); [|intros []].
    unfold AddItemToOrderFunction.added.
    destruct (Py.str_int _); cbn; [discriminate | intros []].
  - rewrite handle_remove_item_run. cbv zeta.
    destruct (arguments_item_id params) as [i|]; [|reflexivity].
    destruct (String.eqb i ""); [reflexivity|].
    destruct (first_with_id i (order_items (session_state w)));
      [|reflexivity].
    destruct (match arguments_quantity params with
              | Some q => q <? 1
              | None => false
              end); [reflexivity|].
    destruct (RemoveItemFromOrderFunction.logged _ _ _); [|intros []].
    destruct (order_items (snd (remove_item i _ _))); cbn; [discriminate|].
    destruct (calculate_total _); [|intros []].
    unfold RemoveItemFromOrderFunction.removed_some.
    destruct (arguments_quantity params) as [q|];
      [destruct (_ <=? q); [|destruct (Py.str_int q)]|]; cbn;
      try discriminate; intros [].
  - rewrite handle_read_order_run.
    destruct (order_items (session_state w)); [reflexivity|].
    destruct (Py.map_result _ _) as [item_lines|]; [|intros []].
    destruct (calculate_total _); [|intros []].
    destruct item_lines; cbn; discriminate.
  - rewrite handle_calculate_total_run.
    destruct (order_items (session_state w)); [reflexivity|].
    destruct (Py.map_result _ _) as [item_lines|]; [|intros []].
    destruct (calculate_total _); [|intros []].
    destruct item_lines; cbn; discriminate.
  - rewrite handle_create_order_run.
    destruct (order_items (session_state w)); [reflexivity|].
    cbv zeta. destruct (api_client _); cbn; discriminate.
Qed.

Lemma error_text_means_no_change_witness :
  snd (handler example_menu (mock_client example_menu "X")
         (remove_item_from_order (mkParams (Some "side-001") (Some 0)))
         three_fries)
  = three_fries.
Proof.
  apply (error_text_means_no_change example_menu
           (mock_client example_menu "X")
           (remove_item_from_order (mkParams (Some "side-001") (Some 0)))
           three_fries).
  reflexivity.
Defined.

(** X13 -- removing without a quantity.  For the remove tool, leaving
    the quantity out and giving a quantity that is at least 1 and at
    least the quantity of the line are one and the same call: the same
    text, the same cart, the same deliveries -- also when the id is
    missing, empty or not in the cart. *)
Theorem remove_all_two_ways (item_id : option string) (q : Z) (w : World) :
  1 <= q ->
  (forall i x,
     item_id = Some i ->
     first_with_id i (order_items (session_state w)) = Some x ->
     OrderItem.quantity x <= q) ->
  RemoveItemFromOrderFunction._handle_remove_item (mkParams item_id (Some q)) w
  = RemoveItemFromOrderFunction._handle_remove_item (mkParams item_id None) w.
Proof.
  intros Hq Hall. rewrite !handle_remove_item_run.
  cbn [arguments_item_id arguments_quantity]. cbv zeta.
  destruct item_id as [i|]; [|reflexivity].
  destruct (String.eqb i ""); [reflexivity|].
  destruct (first_with_id i (order_items (session_state w))) as [x|] eqn:Hx;
    [|reflexivity].
  specialize (Hall i x eq_refl Hx).
  destruct (Z.ltb_spec q 1); [lia|].
  assert (E : remove_item i (Some q) (session_state w)
              = remove_item i None (session_state w)).
  { unfold remove_item. rewrite Hx.
    destruct (Z.leb_spec (OrderItem.quantity x) q); [reflexivity | lia]. }
  rewrite E. unfold RemoveItemFromOrderFunction.logged.
  destruct (Z.ltb_spec q (OrderItem.quantity x)); [lia|].
  rewrite andb_false_r.
  destruct (Z.leb_spec (OrderItem.quantity x) q); [reflexivity | lia].
Qed.

Lemma remove_all_two_ways_witness :
  RemoveItemFromOrderFunction._handle_remove_item
    (mkParams (Some "burger-001") (Some 5)) (mkWorld fries_and_burgers [] [])
  = RemoveItemFromOrderFunction._handle_remove_item
      (mkParams (Some "burger-001") None) (mkWorld fries_and_burgers [] []).
Proof.
  apply (remove_all_two_ways (Some "burger-001") 5
           (mkWorld fries_and_burgers [] [])).
  - lia.
  - intros i x Hi. injection Hi as <-. cbn.
    intros Hx. injection Hx as <-. cbn. lia.
Defined.

(** X14 -- ordering twice.  On a cart that is not empty: after a
    submission that succeeded, a second [create_order] finds the cart
    empty, answers with the error text and sends nothing, so the order
    is not placed twice; after a submission that failed, a second
    [create_order] sends the very same lines again. *)
Theorem create_order_twice (first second : ApiClient) (w : World) :
  order_items (session_state w) <> [] ->
  let api_items :=
    CreateOrderFunction.api_items_of (order_items (session_state w)) in
  let w1 := snd (CreateOrderFunction._handle_create_order first w) in
  match first api_items with
  | Returned _ =>
      CreateOrderFunction._handle_create_order second w1
      = (Returned CreateOrderFunction.empty_order, w1)
      /\ api_requests w1 = api_requests w ++ [api_items]
  | Raised _ =>
      api_requests
        (snd (CreateOrderFunction._handle_create_order second w1))
      = api_requests w ++ [api_items; api_items]
  end.
Proof.
  intros Hne api_items w1. subst w1.
  rewrite (handle_create_order_run first w).
  destruct (order_items (session_state w)) as [|x rest] eqn:E;
    [congruence|].
  cbv zeta. fold api_items.
  destruct (first api_items) as [order_response|e]; cbn [snd].
  - now rewrite handle_create_order_run.
  - rewrite handle_create_order_run. cbn [session_state]. rewrite E.
    cbv zeta. fold api_items.
    destruct (second api_items); cbn [snd api_requests];
      now rewrite <- app_assoc.
Qed.

Lemma create_order_twice_witness :
  CreateOrderFunction._handle_create_order (mock_client example_menu "Y")
    (snd (CreateOrderFunction._handle_create_order
            (mock_client example_menu "X") three_fries))
  = (Returned CreateOrderFunction.empty_order,
     snd (CreateOrderFunction._handle_create_order
            (mock_client example_menu "X") three_fries))
  /\ api_requests
       (snd (CreateOrderFunction._handle_create_order
               (mock_client example_menu "X") three_fries))
     = api_requests three_fries
         ++ [CreateOrderFunction.api_items_of
               (order_items (session_state three_fries))].
Proof.
  apply (create_order_twice (mock_client example_menu "X")
           (mock_client example_menu "Y") three_fries).
  vm_compute. discriminate.
Defined.

(** X15 -- one total, two tools.  On a cart that is not empty,
    [read_current_order] and [calculate_order_total] go the same way.
    When [calculate_total()] returns, both leave the cart and the
    requests as they were, deliver what they return, and end their text
    with a blank line and "Total: $" followed by the total printed with
    two decimals.  When [calculate_total()] raises, both raise the same
    exception, and nothing has changed or been delivered. *)
Theorem read_and_total_agree (w : World) :
  order_items (session_state w) <> [] ->
  match calculate_total (session_state w) with
  | Returned total =>
      let ending :=
        (Py.newline ++ Py.newline ++ "Total: $" ++ Py.format_2f total)%string
      in
      (exists text,
         ReadCurrentOrderFunction._handle_read_order w
         = (Returned (text ++ ending)%string,
            mkWorld (session_state w) (api_requests w)
              (callback_results w ++ [(text ++ ending)%string])))
      /\ (exists text,
            CalculateOrderTotalFunction._handle_calculate_total w
            = (Returned (text ++ ending)%string,
               mkWorld (session_state w) (api_requests w)
                 (callback_results w ++ [(text ++ ending)%string])))
  | Raised e =>
      ReadCurrentOrderFunction._handle_read_order w = (Raised e, w)
      /\ CalculateOrderTotalFunction._handle_calculate_total w = (Raised e, w)
  end.
Proof.
  intros Hne.
  rewrite handle_read_order_run, handle_calculate_total_run.
  pose proof (item_lines_cases (session_state w)) as Hlines.
  destruct (order_items (session_state w)) as [|x rest] eqn:E;
    [congruence|].
  rewrite <- E in *.
  destruct (calculate_total (session_state w)) as [total|e].
  - destruct Hlines as [[read_lines ->] [total_lines ->]].
    cbv zeta. split; eexists; rewrite join_snoc; reflexivity.
  - destruct Hlines as [-> ->]. now split.
Qed.

Lemma read_and_total_agree_witness :
  (exists text,
     ReadCurrentOrderFunction._handle_read_order three_fries
     = (Returned (text ++ Py.newline ++ Py.newline ++ "Total: $7.47")%string,
        mkWorld (session_state three_fries) (api_requests three_fries)
          (callback_results three_fries
             ++ [(text ++ Py.newline ++ Py.newline ++ "Total: $7.47")%string])))
  /\ (exists text,
        CalculateOrderTotalFunction._handle_calculate_total three_fries
        = (Returned
             (text ++ Py.newline ++ Py.newline ++ "Total: $7.47")%string,
           mkWorld (session_state three_fries) (api_requests three_fries)
             (callback_results three_fries
                ++ [(text ++ Py.newline ++ Py.newline ++ "Total: $7.47")%string]))).
Proof.
  apply (read_and_total_agree three_fries).
  vm_compute. discriminate.
Defined.

(* ================================================================== *)
(** ** The catalog in the prompt *)
(* ================================================================== *)

Lemma format_items_fold (capitalize : string -> string)
    (catalog_items : list MenuItem.t) :
  forall current_category lines,
  exists added,
    snd (fold_left (Bot.format_item capitalize) catalog_items
           (current_category, lines))
    = lines ++ added
    /\ List.length added
       = (2 * List.length catalog_items
          + category_changes current_category catalog_items)%nat
    /\ forall item,
         In item catalog_items ->
         exists before after,
           added
           = before
               ++ Bot.item_line item :: Bot.description_line item :: after.
Proof.
  induction catalog_items as [|first rest IH]; intros current_category lines.
  - exists []. cbn. rewrite app_nil_r. repeat split. intros item [].
  - cbn [fold_left Bot.format_item category_changes].
    destruct (Bot.category_differs (MenuItem.category first) current_category)
      eqn:Hdiffers.
    + destruct (IH (Some (MenuItem.category first))
                  ((lines
                      ++ [Bot.category_line capitalize
                            (MenuItem.category first)])
                     ++ [Bot.item_line first; Bot.description_line first]))
        as (added & Hsnd & Hlen & Hin).
      exists (Bot.category_line capitalize (MenuItem.category first)
                :: Bot.item_line first :: Bot.description_line first :: added).
      split; [rewrite Hsnd, <- !app_assoc; reflexivity|].
      split; [simpl; lia|].
      intros item [<-|Hitem].
      * now exists [Bot.category_line capitalize (MenuItem.category first)],
          added.
      * destruct (Hin item Hitem) as (before & after & ->).
        now exists (Bot.category_line capitalize (MenuItem.category first)
                      :: Bot.item_line first :: Bot.description_line first
                      :: before), after.
    + assert (Hsame : current_category = Some (MenuItem.category first)).
      { destruct current_category as [c|]; [|discriminate Hdiffers].
        cbn in Hdiffers. apply negb_false_iff, String.eqb_eq in Hdiffers.
        now subst c. }
      destruct (IH current_category
                  (lines ++ [Bot.item_line first; Bot.description_line first]))
        as (added & Hsnd & Hlen & Hin).
      rewrite Hsame in Hlen.
      exists (Bot.item_line first :: Bot.description_line first :: added).
      split; [rewrite Hsnd, <- !app_assoc; reflexivity|].
      split; [simpl; lia|].
      intros item [<-|Hitem].
      * now exists [], added.
      * destruct (Hin item Hitem) as (before & after & ->).
        now exists (Bot.item_line first :: Bot.description_line first
                      :: before), after.
Qed.

(** X16 -- the catalog in the prompt.  The lines that
    [format_catalog_for_prompt] joins hold, for every catalog entry, its
    line with name, id and price directly followed by its description
    line; there are two lines per entry plus one category line at each
    place where the category differs from the entry before, so a
    category that comes back later in the catalog gets a second
    heading; and the text of an empty catalog is empty. *)
Theorem catalog_lines_cover_catalog (capitalize : string -> string)
    (catalog_items : list MenuItem.t) :
  List.length (Bot.catalog_lines capitalize catalog_items)
  = (2 * List.length catalog_items + category_changes None catalog_items)%nat
  /\ (forall item,
        In item catalog_items ->
        exists before after,
          Bot.catalog_lines capitalize catalog_items
          = before
              ++ Bot.item_line item :: Bot.description_line item :: after)
  /\ Bot.format_catalog_for_prompt capitalize [] = ""%string.
Proof.
  unfold Bot.catalog_lines.
  destruct (format_items_fold capitalize catalog_items None [])
    as (added & Hsnd & Hlen & Hin).
  rewrite Hsnd. cbn [app]. repeat split; assumption.
Qed.

(** X17 -- the result callback.  Whatever the tool, its arguments, the
    cart and the endpoint's answer, a handler either delivers nothing
    through the callback or delivers, once, exactly the string it
    returns; it never delivers one text and returns another, and never
    delivers when it raises. *)
Theorem handler_delivers_what_it_returns (catalog : list MenuItem.t)
    (api_client : ApiClient) (call : ToolCall) (w : World) :
  callback_results (snd (handler catalog api_client call w))
  = callback_results w
  \/ exists response,
       fst (handler catalog api_client call w) = Returned response
       /\ callback_results (snd (handler catalog api_client call w))
          = callback_results w ++ [response].
Proof. apply handler_callback_discipline. Qed.
